(** * kmlparse: the line extractor and the polygon simplifier

    A shallow embedding of [kmlparse.py].  The script reads a KML file one
    line at a time, recognises name tags and coordinate pairs with a single
    regular expression, accumulates the points of the current polygon and,
    on the first line that is neither, hands them to [Simplified] and
    [KmlOut].

    Python strings are modelled by [string]; its 8-bit characters are read
    as the code points U+0000 to U+00FF.  The file system is a map from
    paths to contents together with the set of paths that [open] accepts
    for writing. *)

From Stdlib Require Import Ascii String ZArith QArith Lia DecimalString.
From stdpp Require Import gmap strings list.

Local Open Scope stdpp_scope.

(** ** Character classes of the [re] module (str patterns) *)

Definition code (c : ascii) : N := N_of_ascii c.

Definition in_range (lo hi : N) (c : ascii) : bool :=
  ((lo <=? code c) && (code c <=? hi))%N.

(** [\d]: the decimal digits. *)
Definition is_digit (c : ascii) : bool := in_range 48 57 c.

(** [\s]: the characters for which [str.isspace] holds. *)
Definition is_space (c : ascii) : bool :=
  in_range 9 13 c || in_range 28 32 c
  || (code c =? 133)%N || (code c =? 160)%N.

(** [\w]: the alphanumeric characters and the underscore. *)
Definition is_word (c : ascii) : bool :=
  is_digit c || in_range 65 90 c || in_range 97 122 c || (code c =? 95)%N
  || (code c =? 170)%N || in_range 178 179 c || (code c =? 181)%N
  || in_range 185 186 c || in_range 188 190 c
  || in_range 192 214 c || in_range 216 246 c || in_range 248 255 c.

(** [[\w\s]] *)
Definition is_word_or_space (c : ascii) : bool := is_word c || is_space c.

Definition newline : ascii := "010"%char.

(** ** Regular expressions with capturing groups

    The fragment of [re] syntax that the script's pattern uses.  Repetition
    with [*] is only applied to a character class. *)

Inductive regex : Type :=
| Eps                                  (* the empty pattern *)
| Lit (c : ascii)                      (* a literal character *)
| Dot                                  (* [.]: anything but a newline *)
| Class (p : ascii → bool)             (* [\d], [[\w\s]] *)
| Seq (r1 r2 : regex)                  (* concatenation *)
| Alt (r1 r2 : regex)                  (* [r1|r2] *)
| Star (p : ascii → bool)              (* greedy [*] over a class *)
| Rep (n : nat) (r : regex)            (* [r{n}] *)
| Group (i : nat) (r : regex).         (* [(r)], the group numbered [i] *)

(** The groups that took part in a match, most recent binding first. *)
Definition groups : Type := list (nat * string).

Fixpoint lookup_group (i : nat) (g : groups) : option string :=
  match g with
  | [] => None
  | (j, t) :: g' => if Nat.eqb i j then Some t else lookup_group i g'
  end.

(** The text between the start [s] of a group and the rest [s'] left when
    the group is closed. *)
Definition consumed (s s' : string) : string :=
  substring 0 (String.length s - String.length s') s.

(** Greedy repetition of a class: as many characters as possible, giving
    them back one at a time while the continuation fails. *)
Fixpoint star (p : ascii → bool) (s : string) (k : string → option groups)
  : option groups :=
  match s with
  | String c s' =>
      if p c then
        match star p s' k with
        | Some g => Some g
        | None => k s
        end
      else k s
  | EmptyString => k s
  end.

(** Backtracking matcher in continuation-passing style: [matches r s g k]
    matches [r] at the start of [s] and passes what is left, with the groups
    bound so far, to [k]; alternatives are tried left to right. *)
Fixpoint matches (r : regex) (s : string) (g : groups)
    (k : string → groups → option groups) {struct r} : option groups :=
  match r with
  | Eps => k s g
  | Lit c =>
      match s with
      | String c' s' => if Ascii.eqb c c' then k s' g else None
      | EmptyString => None
      end
  | Dot =>
      match s with
      | String c' s' => if Ascii.eqb c' newline then None else k s' g
      | EmptyString => None
      end
  | Class p =>
      match s with
      | String c' s' => if p c' then k s' g else None
      | EmptyString => None
      end
  | Seq r1 r2 => matches r1 s g (λ s' g', matches r2 s' g' k)
  | Alt r1 r2 =>
      match matches r1 s g k with
      | Some m => Some m
      | None => matches r2 s g k
      end
  | Star p => star p s (λ s', k s' g)
  | Rep n r' =>
      (fix rep (n : nat) (s : string) (g : groups) : option groups :=
         match n with
         | O => k s g
         | S n' => matches r' s g (rep n')
         end) n s g
  | Group i r' => matches r' s g (λ s' g', k s' ((i, consumed s s') :: g'))
  end.

(** A literal word. *)
Fixpoint Str (w : string) : regex :=
  match w with
  | EmptyString => Eps
  | String c w' => Seq (Lit c) (Str w')
  end.

(** [re.search]: the match at the leftmost position where the pattern
    matches, [None] when there is none. *)
Fixpoint re_search (r : regex) (s : string) : option groups :=
  match matches r s [] (λ _ g, Some g) with
  | Some g => Some g
  | None =>
      match s with
      | String _ s' => re_search r s'
      | EmptyString => None
      end
  end.

(** [m.group(i)] on the result of [re.search]; [None] also stands for a
    failed search, on which the script never calls [group]. *)
Definition group (m : option groups) (i : nat) : option string :=
  match m with
  | Some g => lookup_group i g
  | None => None
  end.

Declare Scope regex_scope.
Delimit Scope regex_scope with re.
Bind Scope regex_scope with regex.
Infix "⋅" := Seq (at level 41, right associativity) : regex_scope.

(** [\d{2}.\d{6}]: two digits, any character, six digits. *)
Definition degrees : regex :=
  (Rep 2 (Class is_digit) ⋅ Dot ⋅ Rep 6 (Class is_digit))%re.

(** The pattern of line 158 is [name_tag|coordinates].  Its first
    alternative is a name tag whose text, group 1, is a run of [[\w\s]]. *)
Definition name_tag : regex :=
  (Str "<name>" ⋅ Group 1 (Star is_word_or_space) ⋅ Str "</name>")%re.

(** Its second alternative is a pair of numbers [-\d{2}.\d{6}] and
    [\d{2}.\d{6}], groups 2 and 3, each followed by any further digits, with
    a comma between them.  The dot is the source's: it is not escaped, so
    it stands for any character. *)
Definition coordinates : regex :=
  (Group 2 (Lit "-" ⋅ degrees) ⋅ Star is_digit ⋅ Lit ","
   ⋅ Group 3 degrees ⋅ Star is_digit)%re.

Definition pattern : regex := Alt name_tag coordinates.

(** ** Exceptions *)

Inductive exn : Type :=
| ValueError     (* [float] on a text that is not a number *)
| IndexError     (* [outpoints[0]] on an empty list *)
| OSError.       (* [open] on a path that cannot be opened for writing *)

Inductive result (A : Type) : Type :=
| Ok (a : A)
| Raise (e : exn).
Arguments Ok {A} a.
Arguments Raise {A} e.

(** ** Floats

    A float is kept as the decimal number its text denotes,
    [(-1)^neg * mant * 10^exp]; Python rounds that number to the nearest
    binary64 value, which a text of at most 15 significant digits
    determines uniquely. *)

Record pyfloat : Type := Dec { fneg : bool; fmant : N; fexp : Z }.

Definition digit_value (c : ascii) : N := (code c - 48)%N.

(** [digit (["_"] digit)*] read after a first digit: the value so far, the
    number of digits read, and the text that is left. *)
Fixpoint digitpart (acc : N) (cnt : nat) (s : string) : N * nat * string :=
  match s with
  | String c s' =>
      if is_digit c then digitpart (acc * 10 + digit_value c)%N (S cnt) s'
      else if Ascii.eqb c "_" then
        match s' with
        | String d s'' =>
            if is_digit d
            then digitpart (acc * 10 + digit_value d)%N (S cnt) s''
            else (acc, cnt, s)
        | EmptyString => (acc, cnt, s)
        end
      else (acc, cnt, s)
  | EmptyString => (acc, cnt, s)
  end.

(** A digit part at the start of [s], if there is one. *)
Definition digits (acc : N) (s : string) : option (N * nat * string) :=
  match s with
  | String c s' =>
      if is_digit c then Some (digitpart (acc * 10 + digit_value c)%N 1 s')
      else None
  | EmptyString => None
  end.

Definition sign (s : string) : bool * string :=
  match s with
  | String "-" s' => (true, s')
  | String "+" s' => (false, s')
  | _ => (false, s)
  end.

(** The exponent part, [(e|E) [sign] digitpart], and the end of the text. *)
Definition exponent (s : string) : option Z :=
  match s with
  | EmptyString => Some 0%Z
  | String c s' =>
      if Ascii.eqb c "e" || Ascii.eqb c "E" then
        let '(neg, s'') := sign s' in
        match digits 0 s'' with
        | Some (e, _, EmptyString) =>
            Some (if neg then (- Z.of_N e)%Z else Z.of_N e)
        | _ => None
        end
      else None
  end.

(** [float(s)] for the decimal literals: an optional sign, digits with an
    optional fraction (or a fraction alone) and an optional exponent; any
    other text raises [ValueError].  The texts that [float] also accepts and
    that are left out here ([inf], [nan], blanks around the number) begin or
    end with a character that is neither a sign nor a digit, which a text
    captured by groups 2 and 3 of [pattern] never does. *)
Definition py_float (s : string) : result pyfloat :=
  let '(neg, s1) := sign s in
  let whole := digits 0 s1 in
  let has_whole := match whole with Some _ => true | None => false end in
  let '(ip, s2) :=
    match whole with
    | Some (n, _, rest) => (n, rest)
    | None => (0%N, s1)
    end in
  let fraction :=
    match s2 with
    | String "." s3 =>
        match digits ip s3 with
        | Some (n, cnt, rest) => Some (n, cnt, rest)
        | None => if has_whole then Some (ip, 0, s3) else None
        end
    | _ => if has_whole then Some (ip, 0, s2) else None
    end in
  match fraction with
  | Some (mant, cnt, s4) =>
      match exponent s4 with
      | Some e => Ok (Dec neg mant (e - Z.of_nat cnt))
      | None => Raise ValueError
      end
  | None => Raise ValueError
  end.

(** [str(n)] for an integer. *)
Definition str_int (z : Z) : string := NilZero.string_of_int (Z.to_int z).

(** [s.replace(old, new)] for one-character [old] and [new]: every
    occurrence of [old] is replaced. *)
Fixpoint replace (old new : ascii) (s : string) : string :=
  match s with
  | EmptyString => EmptyString
  | String c s' =>
      String (if Ascii.eqb c old then new else c) (replace old new s')
  end.

(** [sep.join(xs)] *)
Fixpoint join (sep : string) (xs : list string) : string :=
  match xs with
  | [] => ""
  | [x] => x
  | x :: xs' => x +:+ sep +:+ join sep xs'
  end.


(** ** The script's environment: output files and the console *)

Record world : Type := World {
  files : gmap string string;   (* path to content *)
  stdout : list string;         (* printed lines, oldest first *)
  writable : string → bool      (* the paths that [open(path, 'w')] accepts *)
}.

Definition nl : string := String newline "".
Definition dq : string := String "034" "".

(** Lines 96 to 112. *)
Definition kmlopen (name : string) : string :=
  "<?xml version=" +:+ dq +:+ "1.0" +:+ dq +:+ " encoding=" +:+ dq +:+ "UTF-8"
    +:+ dq +:+ "?>" +:+ nl +:+
  "<kml xmlns=" +:+ dq +:+ "http://www.opengis.net/kml/2.2" +:+ dq +:+ ">"
    +:+ nl +:+
  "<Style id=" +:+ dq +:+ name +:+ "Style" +:+ dq +:+ "> " +:+ nl +:+
  "<LineStyle> " +:+ nl +:+
  "<width>1</width> " +:+ nl +:+
  "</LineStyle> " +:+ nl +:+
  "<PolyStyle> " +:+ nl +:+
  "<color>8033CAC0</color> " +:+ nl +:+
  "</PolyStyle> " +:+ nl +:+
  "</Style> " +:+ nl +:+
  "<Placemark> " +:+ nl +:+
  "<name>" +:+ name +:+ "</name> " +:+ nl +:+
  "<styleUrl>#" +:+ name +:+ "Style</styleUrl> " +:+ nl +:+
  "<Polygon> " +:+ nl +:+
  "<outerBoundaryIs> " +:+ nl +:+
  "<LinearRing>" +:+ nl +:+
  "<coordinates>" +:+ nl.

(** Lines 115 to 120. *)
Definition kmlclose : string :=
  "</coordinates> " +:+ nl +:+
  "</LinearRing> " +:+ nl +:+
  "</outerBoundaryIs> " +:+ nl +:+
  "</Polygon> " +:+ nl +:+
  "</Placemark> " +:+ nl +:+
  "</kml>".

(** The text written between the two headers: each point and a newline. *)
Fixpoint coordinate_lines (points : list string) : string :=
  match points with
  | [] => ""
  | i :: rest => i +:+ nl +:+ coordinate_lines rest
  end.

(** [KmlOut(name, points)], lines 93 to 132.  When [open] at line 125
    refuses the path (a name too long for a file name, a directory that
    cannot be written) it raises [OSError]: nothing is written and nothing
    is printed.  Otherwise the file [name_points.kml] is created or
    overwritten, and one progress line is printed; the writes to a file
    that is open are taken to succeed. *)
Definition KmlOut (name : string) (points : list string) (w : world)
  : result world :=
  if writable w (name +:+ "_points.kml") then
    Ok {| files := <[ name +:+ "_points.kml" :=
                      kmlopen name +:+ coordinate_lines points +:+ kmlclose ]>
                   (files w);
          stdout := stdout w ++
                    [ "wrote file for " +:+ name +:+ " -- length: "
                      +:+ str_int (Z.of_nat (length points)) ];
          writable := writable w |}
  else Raise OSError.

(** ** The script *)

(** A point as the script builds it, the list [[longitude, latitude]]. *)
Definition point : Type := list pyfloat.

(** The elements of a point once [0] is appended to it. *)
Inductive pyval : Type :=
| VFloat (f : pyfloat)
| VInt (z : Z).

(** The global variables [name] and [points], the environment, and a
    history variable: the arguments of the calls of [Simplified] made so
    far, oldest first.  The history is not read by the script. *)
Record state : Type := State {
  name : string;
  points : list point;
  env : world;
  calls : list (list point)
}.

(** What running a piece of the script ends in. *)
Inductive outcome : Type :=
| Continue              (* control reaches the end of the piece *)
| Raised (e : exn).     (* an exception leaves the script *)

(** A value in a condition: [None] and the empty string are false. *)
Definition truthy (v : option string) : bool :=
  match v with
  | Some (String _ _) => true
  | _ => false
  end.

Definition text (v : option string) : string := default "" v.

Section Script.

(** The two operations the script takes from outside: the
    Ramer-Douglas-Peucker reduction of the simplification package and
    Python's [str] on a float. *)
Variable simplify_coords : list point → pyfloat → list point.
Variable str_float : pyfloat → string.

Definition str (v : pyval) : string :=
  match v with
  | VFloat f => str_float f
  | VInt z => str_int z
  end.

(** Line 60. *)
Definition lineWidth : pyfloat := Dec false 1 (-3).

(** Lines 65 to 68, for one point [x] of the reduced line. *)
Definition transform (x : point) : list string :=
  str <$> ((VFloat <$> x) ++ [VInt 0]).

(** Lines 47 to 77.  The library builds a list of its own for every point
    it keeps, so line 66 appends one [0] to each of them.  The list appended
    at line 71 is the first element itself; nothing is written to it
    afterwards. *)
Definition Simplified (inpoints : list point) : result (list string) :=
  let simplified := simplify_coords inpoints lineWidth in
  let outpoints := transform <$> simplified in
  match outpoints with
  | [] => Raise IndexError
  | first :: _ => Ok (join "," <$> (outpoints ++ [first]))
  end.

(** Lines 159 to 161: the name branch. *)
Definition set_name (st : state) (captured : string) : state :=
  {| name := replace " " "_" captured;
     points := points st; env := env st; calls := calls st |}.

(** Lines 162 to 164: the coordinate branch. *)
Definition append_point (st : state) (lon lat : string) : state * outcome :=
  match py_float lon with
  | Raise e => (st, Raised e)
  | Ok x =>
      match py_float lat with
      | Raise e => (st, Raised e)
      | Ok y =>
          ({| name := name st; points := points st ++ [[x; y]];
              env := env st; calls := calls st |}, Continue)
      end
  end.

(** Lines 169 and 170: the pending points are simplified and written out,
    and [points] starts again from the empty list.  An exception raised by
    [Simplified] or by [KmlOut] leaves [points] as it is. *)
Definition flush (st : state) : state * outcome :=
  let called := calls st ++ [points st] in
  match Simplified (points st) with
  | Raise e =>
      ({| name := name st; points := points st; env := env st;
          calls := called |}, Raised e)
  | Ok outpoints =>
      match KmlOut (name st) outpoints (env st) with
      | Raise e =>
          ({| name := name st; points := points st; env := env st;
              calls := called |}, Raised e)
      | Ok w =>
          ({| name := name st; points := []; env := w;
              calls := called |}, Continue)
      end
  end.

(** Lines 158 to 170: the body of the loop for the line [l]. *)
Definition step (st : state) (l : string) : state * outcome :=
  let m := re_search pattern l in
  if truthy (group m 1) then
    (set_name st (text (group m 1)), Continue)
  else if truthy (group m 2) && truthy (group m 3) then
    append_point st (text (group m 2)) (text (group m 3))
  else if negb (length (points st) =? 0) then
    flush st
  else (st, Continue).

(** Lines 148 to 170: the loop over the lines of the file.  Nothing
    follows the loop. *)
Fixpoint run (st : state) (lines : list string) : state * outcome :=
  match lines with
  | [] => (st, Continue)
  | l :: rest =>
      match step st l with
      | (st', Continue) => run st' rest
      | (st', Raised e) => (st', Raised e)
      end
  end.

(** Lines 138 and 139, in an environment [w]. *)
Definition initial (w : world) : state :=
  {| name := ""; points := []; env := w; calls := [] |}.

Definition script (w : world) (lines : list string) : state * outcome :=
  run (initial w) lines.

End Script.


(** ** The three kinds of line

    The two tests of lines 159 and 162, as one function of the line. *)

Inductive record_kind : Type :=
| NameRecord (captured : string)
| CoordinateRecord (lon lat : string)
| Separator.

Definition classify (l : string) : record_kind :=
  let m := re_search pattern l in
  if truthy (group m 1) then NameRecord (text (group m 1))
  else if truthy (group m 2) && truthy (group m 3)
  then CoordinateRecord (text (group m 2)) (text (group m 3))
  else Separator.

(** ** A reference instance of the two outside operations

    Used to run the script on concrete inputs only; no property below is
    about them.  They stand in for the simplification package and for
    Python's [str]: a Ramer-Douglas-Peucker reduction that measures the
    distance to the line through the two end points in exact rational
    arithmetic, and the positional rendering of a decimal, which is what
    [str] prints between 1e-4 and 1e16. *)

Module Reference.

Definition to_Q (f : pyfloat) : Q :=
  let m := if fneg f then (- Z.of_N (fmant f))%Z else Z.of_N (fmant f) in
  if (0 <=? fexp f)%Z then inject_Z (m * 10 ^ fexp f)
  else Qmake m (Z.to_pos (10 ^ (- fexp f))).

Definition xy (p : point) : Q * Q :=
  match p with
  | x :: y :: _ => (to_Q x, to_Q y)
  | _ => (0, 0)%Q
  end.

(** The square of the distance from [p] to the line through [a] and [b],
    or to [a] when the two coincide. *)
Definition dist2 (p a b : point) : Q :=
  let '(px, py) := xy p in
  let '(ax, ay) := xy a in
  let '(bx, by') := xy b in
  let dx := (bx - ax)%Q in
  let dy := (by' - ay)%Q in
  let len2 := (dx * dx + dy * dy)%Q in
  if Qeq_bool len2 0
  then ((px - ax) * (px - ax) + (py - ay) * (py - ay))%Q
  else
    let cross := (dx * (ay - py) - (ax - px) * dy)%Q in
    (cross * cross / len2)%Q.

(** The position and squared distance of the point of [ps] farthest from
    the line through [a] and [b]; the first one wins a tie. *)
Fixpoint farthest (a b : point) (ps : list point) (i : nat)
    (best : nat * Q) : nat * Q :=
  match ps with
  | [] => best
  | p :: ps' =>
      let d := dist2 p a b in
      farthest a b ps' (S i) (if Qle_bool d (snd best) then best else (i, d))
  end.

(** The reduction of the line that starts at [a] and goes on through
    [rest], without [a] itself. *)
Fixpoint reduce (fuel : nat) (tol2 : Q) (a : point) (rest : list point)
  : list point :=
  match fuel with
  | O => rest
  | S fuel' =>
      match last rest with
      | None => []
      | Some b =>
          let '(i, d) := farthest a b (removelast rest) 0 (0, 0%Q) in
          if Qle_bool d tol2 then [b]
          else
            match rest !! i with
            | Some p =>
                reduce fuel' tol2 a (take (S i) rest)
                ++ reduce fuel' tol2 p (drop (S i) rest)
            | None => [b]
            end
      end
  end.

Definition simplify_coords (pts : list point) (tol : pyfloat) : list point :=
  match pts with
  | [] => []
  | a :: rest => a :: reduce (length rest) (to_Q tol * to_Q tol) a rest
  end.

Definition digits_of (n : N) : list ascii :=
  list_ascii_of_string (NilZero.string_of_uint (N.to_uint n)).

Fixpoint drop_while_zero (cs : list ascii) : list ascii :=
  match cs with
  | c :: cs' => if Ascii.eqb c "0" then drop_while_zero cs' else cs
  | [] => []
  end.

(** A decimal written with a point and at least one digit on each side
    of it, without needless zeros. *)
Definition str_float (f : pyfloat) : string :=
  let ds := digits_of (fmant f) in
  let body :=
    if (0 <=? fexp f)%Z
    then ds ++ replicate (Z.to_nat (fexp f)) "0"%char ++ [".";"0"]%char
    else
      let k := Z.to_nat (- fexp f) in
      let padded := replicate (S k - length ds) "0"%char ++ ds in
      let whole := take (length padded - k) padded in
      let frac := reverse (drop_while_zero (reverse (drop (length padded - k) padded))) in
      whole ++ ["."%char] ++ (match frac with [] => ["0"%char] | _ => frac end) in
  string_of_list_ascii ((if fneg f then ["-"%char] else []) ++ body).

End Reference.


(** ** Vocabulary of the statements *)

(** Every character of [s] satisfies [p]. *)
Fixpoint all_chars (p : ascii → bool) (s : string) : bool :=
  match s with
  | EmptyString => true
  | String c s' => p c && all_chars p s'
  end.

(** [n] digits. *)
Definition digit_run (n : nat) (s : string) : bool :=
  (String.length s =? n) && all_chars is_digit s.

(** A character at which neither alternative of [pattern] can start. *)
Definition inert (c : ascii) : bool :=
  negb (Ascii.eqb c "<") && negb (Ascii.eqb c "-").

(** [s] is empty or starts with a character outside [p]. *)
Definition stops (p : ascii → bool) (s : string) : bool :=
  match s with
  | EmptyString => true
  | String c _ => negb (p c)
  end.

(** The number written by the digits of [s], after the digits already
    read into [acc]. *)
Fixpoint number (acc : N) (s : string) : N :=
  match s with
  | EmptyString => acc
  | String c s' => number (acc * 10 + digit_value c)%N s'
  end.

(** What follows the longitude: further digits, the comma, the latitude
    and further digits. *)
Definition after_longitude (lon : string) (k : string → groups → option groups)
    (s : string) (g : groups) : option groups :=
  star is_digit s
    (λ s', matches (Lit "," ⋅ Group 3 degrees ⋅ Star is_digit) s'
             ((2, lon) :: g) k).

(** The library keeps at least one point of a line that has one. *)
Definition keeps_a_point (sc : list point → pyfloat → list point) : Prop :=
  ∀ pts tol, pts ≠ [] → sc pts tol ≠ [].

(** The text of one point of the reduced line. *)
Definition rendered (str_float : pyfloat → string) (x : point) : string :=
  join "," (transform str_float x).

(** ** The specification's wording, for comparison *)

(** The specification's coordinate line: somewhere on the line, a number
    "-DD.DDDDDD" and a number "DD.DDDDDD", each possibly followed by more
    digits, with a comma between them. *)
Definition spec_coordinate_line (l : string) : Prop :=
  ∃ pre d f extra e h rest,
    l = pre +:+ "-" +:+ d +:+ "." +:+ f +:+ extra +:+ ","
            +:+ e +:+ "." +:+ h +:+ rest
    ∧ digit_run 2 d = true ∧ digit_run 6 f = true
    ∧ all_chars is_digit extra = true
    ∧ digit_run 2 e = true ∧ digit_run 6 h = true.

(** The specification's name sanitisation: every run of whitespace
    becomes one join character.  [in_run] tells that the character before
    was whitespace. *)
Fixpoint spec_join_runs (in_run : bool) (s : string) : string :=
  match s with
  | EmptyString => EmptyString
  | String c s' =>
      if is_space c
      then (if in_run then spec_join_runs true s'
            else String "_" (spec_join_runs true s'))
      else String c (spec_join_runs false s')
  end.

Definition spec_sanitize (s : string) : string := spec_join_runs false s.

(** ** Sample inputs *)

(** A file system that accepts the paths of at most 255 characters. *)
Definition short_path (path : string) : bool := String.length path <=? 255.

Definition tab : string := String "009" "".

(** The lines of the specification's grouping example. *)
Definition grouping_lines : list string :=
  [ "<name>A</name>"; "-97.123456,29.123456"; "-97.223456,29.223456";
    "---"; "<name>B</name>"; "-98.000000,30.000000" ].

(** A state with one pending point. *)
Definition pending : state :=
  {| name := "A";
     points := [[Dec true 97123456 (-6); Dec false 29123456 (-6)]];
     env := World ∅ [] short_path; calls := [] |}.

Definition empty_world : world := World ∅ [] short_path.

Definition square : list point :=
  [ [Dec true 97123456 (-6); Dec false 29123456 (-6)];
    [Dec true 97223456 (-6); Dec false 29123456 (-6)];
    [Dec true 97223456 (-6); Dec false 29223456 (-6)];
    [Dec true 97123456 (-6); Dec false 29223456 (-6)] ].

(** ** Vocabulary of the further properties *)

(** A place where a match of [pattern] may start: the text goes on with
    "<name>", or with a minus sign and a digit. *)
Definition may_start (s : string) : bool :=
  String.prefix "<name>" s
  || match s with
     | String "-" (String d _) => is_digit d
     | _ => false
     end.

(** No place of [s] may start a match. *)
Fixpoint quiet (s : string) : bool :=
  negb (may_start s)
  && match s with
     | String _ s' => quiet s'
     | EmptyString => true
     end.

(** The point that a line adds to [points]: one for a coordinate record
    whose two texts are numbers, none for any other line. *)
Definition point_of_line (l : string) : list point :=
  match classify l with
  | CoordinateRecord lon lat =>
      match py_float lon, py_float lat with
      | Ok x, Ok y => [[x; y]]
      | _, _ => []
      end
  | _ => []
  end.

(** The line is no coordinate record, or its two texts are numbers. *)
Definition numbers_parse (l : string) : bool :=
  match classify l with
  | CoordinateRecord lon lat =>
      match py_float lon, py_float lat with
      | Ok _, Ok _ => true
      | _, _ => false
      end
  | _ => true
  end.

(** A character that [name] can hold: one of [[\w\s]] other than the
    space. *)
Definition name_char (c : ascii) : bool :=
  is_word_or_space c && negb (Ascii.eqb c " ").

(** The path of the file written for a group. *)
Definition path_of (name : string) : string := name +:+ "_points.kml".

(** The content of the file written for a group. *)
Definition document (name : string) (points : list string) : string :=
  kmlopen name +:+ coordinate_lines points +:+ kmlclose.

(** The line printed for a group. *)
Definition progress_line (name : string) (points : list string) : string :=
  "wrote file for " +:+ name +:+ " -- length: "
  +:+ str_int (Z.of_nat (length points)).

(** The files of the names that a run over [lines] can give to a group,
    starting with the name [n], can all be opened. *)
Definition names_open (w : world) (n : string) (lines : list string) : Prop :=
  writable w (path_of n) = true
  ∧ Forall (λ l, ∀ t, classify l = NameRecord t →
                 writable w (path_of (replace " " "_" t)) = true) lines.

(** The calls of [Simplified] that an outcome leaves without a progress
    line: one when the call itself failed or the file could not be opened,
    none otherwise. *)
Definition unannounced (o : outcome) : nat :=
  match o with
  | Raised IndexError | Raised OSError => 1
  | _ => 0
  end.

(** The characters that [float] accepts between two runs of digits. *)
Definition float_joint (c : ascii) : bool :=
  is_digit c || Ascii.eqb c "." || Ascii.eqb c "_"
  || Ascii.eqb c "e" || Ascii.eqb c "E".

(** A state with nothing pending. *)
Definition idle : state :=
  {| name := "A"; points := []; env := World ∅ [] short_path; calls := [] |}.

(** * Properties *)

(** ** The model on sample inputs *)

Example search_name_tag :
  re_search pattern "    <name>Bell County</name>" = Some [(1, "Bell County")].
Proof. reflexivity. Qed.

Example search_coordinates :
  re_search pattern "-97.7678364872634,29.43458974957393"
  = Some [(3, "29.434589"); (2, "-97.767836")].
Proof. reflexivity. Qed.

Example search_closing_tag : re_search pattern "</coordinates>" = None.
Proof. reflexivity. Qed.

Example search_backtracks :
  re_search pattern "<name>a<name>b c</name>" = Some [(1, "b c")].
Proof. reflexivity. Qed.

Example float_of_longitude :
  py_float "-97.767836" = Ok (Dec true 97767836 (-6)).
Proof. reflexivity. Qed.

Example float_of_garbage : py_float "-97x767836" = Raise ValueError.
Proof. reflexivity. Qed.

Example script_on_two_groups :
  stdout (env (script Reference.simplify_coords Reference.str_float
                 empty_world (grouping_lines ++ ["</coordinates>"])).1)
  = ["wrote file for A -- length: 3"; "wrote file for B -- length: 2"].
Proof. vm_compute. reflexivity. Qed.

Example reduction_drops_points_on_the_line :
  Reference.simplify_coords
    [ [Dec false 0 0; Dec false 0 0]; [Dec false 1 0; Dec false 1 0];
      [Dec false 2 0; Dec false 2 0]; [Dec false 3 0; Dec false 0 0] ]
    lineWidth
  = [ [Dec false 0 0; Dec false 0 0]; [Dec false 2 0; Dec false 2 0];
      [Dec false 3 0; Dec false 0 0] ].
Proof. vm_compute. reflexivity. Qed.

Local Arguments is_digit : simpl never.
Local Arguments is_word_or_space : simpl never.
Local Arguments consumed : simpl never.
Local Arguments digit_value : simpl never.
Local Arguments N.mul : simpl never.
Local Arguments N.add : simpl never.
Local Arguments Ascii.eqb !_ !_ /.

(** ** Strings *)

Lemma append_cons c s t : String c s +:+ t = String c (s +:+ t).
Proof. reflexivity. Qed.

Lemma append_nil_l t : "" +:+ t = t.
Proof. reflexivity. Qed.

Lemma append_nil_r s : s +:+ "" = s.
Proof. induction s as [|c s IH]; [done|]. rewrite append_cons. by f_equal. Qed.

Lemma append_assoc s t u : (s +:+ t) +:+ u = s +:+ (t +:+ u).
Proof.
  induction s as [|c s IH]; [reflexivity|]. rewrite !append_cons. by f_equal.
Qed.

Lemma length_append s t :
  String.length (s +:+ t) = String.length s + String.length t.
Proof.
  induction s as [|c s IH]; [reflexivity|].
  rewrite append_cons. simpl. by f_equal.
Qed.

Lemma substring_prefix a b : substring 0 (String.length a) (a +:+ b) = a.
Proof.
  induction a as [|c a IH].
  - rewrite append_nil_l. by destruct b.
  - rewrite append_cons. simpl. by f_equal.
Qed.

Lemma split_at n s :
  n ≤ String.length s → ∃ a b, s = a +:+ b ∧ String.length a = n.
Proof.
  revert s. induction n as [|n IH]; intros s Hn.
  - by exists "", s.
  - destruct s as [|c s]; [simpl in Hn; lia|].
    destruct (IH s) as (a & b & -> & Ha); [simpl in Hn; lia|].
    exists (String c a), b. split; [done|]. simpl. by rewrite Ha.
Qed.

Lemma all_chars_app p a b :
  all_chars p (a +:+ b) = all_chars p a && all_chars p b.
Proof.
  induction a as [|c a IH]; [done|]. rewrite append_cons. simpl.
  by rewrite IH, andb_assoc.
Qed.

Lemma all_chars_impl (p q : ascii → bool) s :
  (∀ c, p c = true → q c = true) → all_chars p s = true → all_chars q s = true.
Proof.
  intros Hpq. induction s as [|c s IH]; [done|]. simpl.
  intros [Hc Hs]%andb_true_iff. by rewrite (Hpq c Hc), IH.
Qed.

Lemma contains_char c a b :
  all_chars (λ x, negb (Ascii.eqb x c)) (a +:+ String c b) = false.
Proof.
  induction a as [|x a IH].
  - rewrite append_nil_l. simpl. by rewrite Ascii.eqb_refl.
  - rewrite append_cons. simpl. rewrite IH. apply andb_false_r.
Qed.

Lemma digit_run_spec n s :
  digit_run n s = true → String.length s = n ∧ all_chars is_digit s = true.
Proof.
  unfold digit_run. intros [H1 H2]%andb_true_iff. split; [|done].
  by apply Nat.eqb_eq.
Qed.

Lemma digit_inert c : is_digit c = true → inert c = true.
Proof.
  intros H. unfold inert.
  destruct (Ascii.eqb_spec c "<") as [->|]; [done|].
  destruct (Ascii.eqb_spec c "-") as [->|]; done.
Qed.

Lemma consumed_app a b : consumed (a +:+ b) b = a.
Proof.
  unfold consumed. rewrite length_append.
  replace (String.length a + String.length b - String.length b)
    with (String.length a) by lia.
  apply substring_prefix.
Qed.

Lemma consumed_eq a s s' : s = a +:+ s' → consumed s s' = a.
Proof. intros ->. apply consumed_app. Qed.

Ltac norm_str :=
  repeat first
    [rewrite append_cons | rewrite append_assoc | rewrite append_nil_l].

(** ** The matcher *)

Lemma star_commit p k run rest :
  all_chars p run = true →
  (∀ c s, p c = true → k (String c s) = None) →
  star p (run +:+ rest) k = star p rest k.
Proof.
  intros Hrun Hk. induction run as [|c run IH]; [done|].
  simpl in Hrun. apply andb_true_iff in Hrun as [Hc Hrun].
  rewrite append_cons. simpl. rewrite Hc, (IH Hrun).
  destruct (star p rest k) eqn:E; [done|]. by apply Hk.
Qed.

Lemma star_stop p k s : stops p s = true → star p s k = k s.
Proof. destruct s as [|c s]; [done|]. simpl. by intros ->%negb_true_iff. Qed.

Lemma star_total p k s g : (∀ s', k s' = Some g) → star p s k = Some g.
Proof.
  intros Hk. induction s as [|c s IH]; simpl; [done|].
  destruct (p c); [by rewrite IH|done].
Qed.

Lemma star_inv p s k m :
  star p s k = Some m →
  ∃ run rest, s = run +:+ rest ∧ all_chars p run = true ∧ k rest = Some m.
Proof.
  induction s as [|c s IH]; intros H.
  - by exists "", "".
  - simpl in H. destruct (p c) eqn:Hc; [|by exists "", (String c s)].
    destruct (star p s k) as [m'|] eqn:E.
    + destruct (IH H) as (run & rest & -> & Hrun & Hk).
      exists (String c run), rest. simpl. by rewrite Hc, Hrun.
    + by exists "", (String c s).
Qed.

Lemma matches_Str w s g k : matches (Str w) (w +:+ s) g k = k s g.
Proof.
  revert g. induction w as [|c w IH]; intros g; [done|].
  rewrite append_cons. simpl. rewrite Ascii.eqb_refl. apply IH.
Qed.

Lemma matches_Str_inv w s g k m :
  matches (Str w) s g k = Some m → ∃ s', s = w +:+ s' ∧ k s' g = Some m.
Proof.
  revert s. induction w as [|c w IH]; intros s H.
  - by exists s.
  - destruct s as [|c' s]; [done|]. simpl in H.
    destruct (Ascii.eqb_spec c c') as [<-|]; [|done].
    destruct (IH s H) as (s' & -> & Hk). by exists s'.
Qed.

Lemma matches_rep_class n p run rest g k :
  String.length run = n → all_chars p run = true →
  matches (Rep n (Class p)) (run +:+ rest) g k = k rest g.
Proof.
  revert run. induction n as [|n IH]; intros [|c run] Hlen Hall; try done.
  simpl in Hall. apply andb_true_iff in Hall as [Hc Hall].
  rewrite append_cons. simpl. rewrite Hc.
  apply (IH run); [by injection Hlen|done].
Qed.

Lemma matches_rep_class_short n p run rest g k :
  String.length run < n → all_chars p run = true → stops p rest = true →
  matches (Rep n (Class p)) (run +:+ rest) g k = None.
Proof.
  revert run. induction n as [|n IH]; intros run Hlen Hall Hstop; [lia|].
  destruct run as [|c run].
  - rewrite append_nil_l. destruct rest as [|c rest]; [done|].
    simpl in *. by apply negb_true_iff in Hstop as ->.
  - simpl in Hall. apply andb_true_iff in Hall as [Hc Hall].
    rewrite append_cons. simpl. rewrite Hc.
    apply (IH run); [simpl in Hlen; lia|done..].
Qed.

Lemma rep_class_inv n p s g k m :
  matches (Rep n (Class p)) s g k = Some m →
  ∃ run rest, s = run +:+ rest ∧ String.length run = n
    ∧ all_chars p run = true ∧ k rest g = Some m.
Proof.
  revert s. induction n as [|n IH]; intros s H.
  - by exists "", s.
  - destruct s as [|c s]; [done|]. simpl in H.
    destruct (p c) eqn:Hc; [|done].
    destruct (IH s H) as (run & rest & -> & Hlen & Hrun & Hk).
    exists (String c run), rest. simpl. by rewrite Hc, Hrun, Hlen.
Qed.

Lemma re_search_cons r c s :
  re_search r (String c s) =
  match matches r (String c s) [] (λ _ g, Some g) with
  | Some g => Some g
  | None => re_search r s
  end.
Proof. reflexivity. Qed.

Lemma re_search_here r s g :
  matches r s [] (λ _ g, Some g) = Some g → re_search r s = Some g.
Proof. intros H. destruct s; simpl; by rewrite H. Qed.

Lemma re_search_inv r l g :
  re_search r l = Some g →
  ∃ pre s, l = pre +:+ s ∧ matches r s [] (λ _ g, Some g) = Some g.
Proof.
  induction l as [|c l IH]; intros H.
  - exists "", "". simpl in H.
    by destruct (matches r "" [] (λ _ g, Some g)).
  - rewrite re_search_cons in H.
    destruct (matches r (String c l) [] (λ _ g, Some g)) as [g'|] eqn:E.
    + exists "", (String c l). split; [done|]. congruence.
    + destruct (IH H) as (pre & s & -> & Hs). by exists (String c pre), s.
Qed.

(** ** The pattern, piece by piece *)

Lemma pattern_unfold s g k :
  matches pattern s g k =
  match matches name_tag s g k with
  | Some m => Some m
  | None => matches coordinates s g k
  end.
Proof. reflexivity. Qed.

Lemma degrees_unfold s g k :
  matches degrees s g k =
  matches (Rep 2 (Class is_digit)) s g
    (λ s' g', matches (Dot ⋅ Rep 6 (Class is_digit)) s' g' k).
Proof. reflexivity. Qed.

Lemma dot_unfold c s g k :
  matches (Dot ⋅ Rep 6 (Class is_digit)) (String c s) g k =
  if Ascii.eqb c newline then None
  else matches (Rep 6 (Class is_digit)) s g k.
Proof. reflexivity. Qed.

Lemma name_tag_unfold s g k :
  matches name_tag s g k =
  matches (Str "<name>") s g
    (λ s' g', star is_word_or_space s'
       (λ s'', matches (Str "</name>") s'' ((1, consumed s' s'') :: g') k)).
Proof. reflexivity. Qed.

Lemma coordinates_unfold s g k :
  matches coordinates (String "-" s) g k =
  matches degrees s g
    (λ s' g', after_longitude (consumed (String "-" s) s') k s' g').
Proof. reflexivity. Qed.

Lemma latitude_unfold lat g k :
  matches (Lit "," ⋅ Group 3 degrees ⋅ Star is_digit) (String "," lat) g k =
  matches degrees lat g
    (λ s' g', star is_digit s' (λ s'', k s'' ((3, consumed lat s') :: g'))).
Proof. reflexivity. Qed.

Lemma name_tag_first c s g k :
  Ascii.eqb c "<" = false → matches name_tag (String c s) g k = None.
Proof. intros H. rewrite Ascii.eqb_sym in H. simpl. by rewrite H. Qed.

Lemma coordinates_first c s g k :
  Ascii.eqb c "-" = false → matches coordinates (String c s) g k = None.
Proof. intros H. rewrite Ascii.eqb_sym in H. simpl. by rewrite H. Qed.

Lemma digit_not_comma c s g k :
  is_digit c = true → matches (Lit ",") (String c s) g k = None.
Proof.
  intros H. simpl. destruct (Ascii.eqb_spec "," c) as [<-|]; done.
Qed.

Lemma word_not_lt c s g k :
  is_word_or_space c = true → matches (Str "</name>") (String c s) g k = None.
Proof.
  intros H. simpl. destruct (Ascii.eqb_spec "<" c) as [<-|]; done.
Qed.

(** No match starts at an inert character. *)
Lemma inert_no_match c s g k :
  inert c = true → matches pattern (String c s) g k = None.
Proof.
  unfold inert. intros [H1 H2]%andb_true_iff.
  apply negb_true_iff in H1, H2.
  by rewrite pattern_unfold, name_tag_first, coordinates_first.
Qed.

Lemma search_inert pre s :
  all_chars inert pre = true →
  re_search pattern (pre +:+ s) = re_search pattern s.
Proof.
  induction pre as [|c pre IH]; [done|].
  intros [Hc Hpre]%andb_true_iff. rewrite append_cons, re_search_cons.
  rewrite inert_no_match by done. by apply IH.
Qed.

Lemma search_all_inert s :
  all_chars inert s = true → re_search pattern s = None.
Proof.
  induction s as [|c s IH]; [done|].
  intros [Hc Hs]%andb_true_iff. rewrite re_search_cons.
  rewrite inert_no_match by done. by apply IH.
Qed.

(** *** Texts on which the pattern matches *)

Lemma matches_degrees d c f rest g k :
  digit_run 2 d = true → c ≠ newline → digit_run 6 f = true →
  matches degrees (d +:+ String c (f +:+ rest)) g k = k rest g.
Proof.
  intros [Hd1 Hd2]%digit_run_spec Hc [Hf1 Hf2]%digit_run_spec.
  rewrite degrees_unfold, matches_rep_class, dot_unfold by done.
  destruct (Ascii.eqb_spec c newline) as [->|_]; [done|].
  by rewrite matches_rep_class.
Qed.

Lemma matches_degrees_short d c f rest g k :
  digit_run 2 d = true → all_chars is_digit f = true →
  String.length f < 6 → stops is_digit rest = true →
  matches degrees (d +:+ String c (f +:+ rest)) g k = None.
Proof.
  intros [Hd1 Hd2]%digit_run_spec Hf Hlen Hrest.
  rewrite degrees_unfold, matches_rep_class, dot_unfold by done.
  destruct (Ascii.eqb c newline); [done|].
  by apply matches_rep_class_short.
Qed.

(** The second alternative, up to the latitude. *)
Lemma coordinates_longitude d c f extra lat g k :
  digit_run 2 d = true → c ≠ newline → digit_run 6 f = true →
  all_chars is_digit extra = true →
  matches coordinates ("-" +:+ d +:+ String c (f +:+ extra +:+ "," +:+ lat)) g k
  = matches degrees lat ((2, "-" +:+ d +:+ String c f) :: g)
      (λ s' g', star is_digit s' (λ s'', k s'' ((3, consumed lat s') :: g'))).
Proof.
  intros Hd Hc Hf Hx.
  rewrite append_cons, append_nil_l, coordinates_unfold.
  rewrite matches_degrees by done. unfold after_longitude.
  rewrite (consumed_eq ("-" +:+ d +:+ String c f)) by (by norm_str).
  rewrite star_commit; [|done|by intros; apply digit_not_comma].
  by rewrite append_cons, append_nil_l, star_stop, latitude_unfold.
Qed.

(** The second alternative at the start of a pair of numbers. *)
Lemma coordinates_match d c f extra e c' h rest g :
  digit_run 2 d = true → c ≠ newline → digit_run 6 f = true →
  all_chars is_digit extra = true →
  digit_run 2 e = true → c' ≠ newline → digit_run 6 h = true →
  matches coordinates
    ("-" +:+ d +:+ String c (f +:+ extra +:+ "," +:+ e
                              +:+ String c' (h +:+ rest)))
    g (λ _ g, Some g)
  = Some ((3, e +:+ String c' h) :: (2, "-" +:+ d +:+ String c f) :: g).
Proof.
  intros Hd Hc Hf Hx He Hc' Hh.
  rewrite coordinates_longitude, matches_degrees by done.
  rewrite (consumed_eq (e +:+ String c' h)) by (by norm_str).
  by apply star_total.
Qed.

(** The second alternative fails on a pair with a short fraction. *)
Lemma coordinates_short d f1 e f2 tail g k :
  digit_run 2 d = true → all_chars is_digit f1 = true →
  digit_run 2 e = true → all_chars is_digit f2 = true →
  String.length f1 < 6 ∨ String.length f2 < 6 →
  stops is_digit tail = true →
  matches coordinates
    ("-" +:+ d +:+ "." +:+ f1 +:+ "," +:+ e +:+ "." +:+ f2 +:+ tail) g k = None.
Proof.
  intros Hd Hf1 He Hf2 Hlen Htail.
  rewrite !(append_cons "." ""), !append_nil_l.
  destruct (decide (String.length f1 < 6)) as [Hshort|Hlong].
  - rewrite append_cons, append_nil_l, coordinates_unfold.
    by apply matches_degrees_short.
  - destruct Hlen as [?|Hlen]; [done|].
    destruct (split_at 6 f1) as (f & extra & -> & Hf); [lia|].
    rewrite all_chars_app in Hf1. apply andb_true_iff in Hf1 as [Hf1 Hx].
    rewrite (append_assoc f), coordinates_longitude; [|done|done| |done].
    + by apply matches_degrees_short.
    + unfold digit_run. by rewrite Hf, Hf1.
Qed.

(** The first alternative at the start of a name tag. *)
Lemma name_tag_match t rest g :
  all_chars is_word_or_space t = true →
  matches name_tag ("<name>" +:+ t +:+ "</name>" +:+ rest) g (λ _ g, Some g)
  = Some ((1, t) :: g).
Proof.
  intros Ht. rewrite name_tag_unfold, matches_Str.
  rewrite star_commit; [|done|by intros; apply word_not_lt].
  rewrite star_stop by reflexivity.
  by rewrite consumed_app, matches_Str.
Qed.

(** *** What a match tells about the text *)

Lemma degrees_inv s g k m :
  matches degrees s g k = Some m →
  ∃ d c f rest, s = d +:+ String c (f +:+ rest)
    ∧ digit_run 2 d = true ∧ c ≠ newline ∧ digit_run 6 f = true
    ∧ k rest g = Some m.
Proof.
  rewrite degrees_unfold.
  intros (d & s1 & -> & Hd1 & Hd2 & H)%rep_class_inv.
  destruct s1 as [|c s1]; [done|]. rewrite dot_unfold in H.
  destruct (Ascii.eqb_spec c newline) as [|Hc]; [done|].
  apply rep_class_inv in H as (f & rest & -> & Hf1 & Hf2 & H).
  exists d, c, f, rest. unfold digit_run. by rewrite Hd1, Hd2, Hf1, Hf2.
Qed.

Lemma coordinates_inv s g m :
  matches coordinates s g (λ _ g, Some g) = Some m →
  ∃ d c f extra e c' h rest,
    s = "-" +:+ d +:+ String c (f +:+ extra +:+ "," +:+ e
                                 +:+ String c' (h +:+ rest))
    ∧ digit_run 2 d = true ∧ c ≠ newline ∧ digit_run 6 f = true
    ∧ all_chars is_digit extra = true
    ∧ digit_run 2 e = true ∧ c' ≠ newline ∧ digit_run 6 h = true
    ∧ m = (3, e +:+ String c' h) :: (2, "-" +:+ d +:+ String c f) :: g.
Proof.
  intros H. destruct s as [|c0 s]; [done|].
  destruct (Ascii.eqb c0 "-") eqn:E0; [|by rewrite coordinates_first in H].
  apply Ascii.eqb_eq in E0 as ->. rewrite coordinates_unfold in H.
  apply degrees_inv in H as (d & c & f & s1 & -> & Hd & Hc & Hf & H).
  rewrite (consumed_eq ("-" +:+ d +:+ String c f)) in H by (by norm_str).
  apply star_inv in H as (extra & s2 & -> & Hx & H).
  destruct s2 as [|c2 lat]; [done|].
  destruct (Ascii.eqb "," c2) eqn:E2; [|by simpl in H; rewrite E2 in H].
  apply Ascii.eqb_eq in E2 as <-. rewrite latitude_unfold in H.
  apply degrees_inv in H as (e & c' & h & s3 & -> & He & Hc' & Hh & H).
  rewrite (consumed_eq (e +:+ String c' h)) in H by (by norm_str).
  apply star_inv in H as (? & ? & _ & _ & H).
  exists d, c, f, extra, e, c', h, s3. by simplify_eq.
Qed.

Lemma name_tag_inv s g m :
  matches name_tag s g (λ _ g, Some g) = Some m →
  ∃ t rest, s = "<name>" +:+ t +:+ "</name>" +:+ rest
    ∧ all_chars is_word_or_space t = true ∧ m = (1, t) :: g.
Proof.
  rewrite name_tag_unfold. intros (s1 & -> & H)%matches_Str_inv.
  apply star_inv in H as (t & s2 & -> & Ht & H).
  rewrite consumed_app in H.
  apply matches_Str_inv in H as (rest & -> & H).
  exists t, rest. by simplify_eq.
Qed.

(** The groups of a match: group 1 alone, or groups 2 and 3 with texts
    that are not empty. *)
Lemma search_pattern_groups l g :
  re_search pattern l = Some g →
  (∃ t, g = [(1, t)])
  ∨ (∃ lon lat, g = [(3, lat); (2, lon)] ∧ lon ≠ "" ∧ lat ≠ "").
Proof.
  intros (pre & s & -> & H)%re_search_inv. rewrite pattern_unfold in H.
  destruct (matches name_tag s [] (λ _ g, Some g)) as [m|] eqn:E.
  - apply name_tag_inv in E as (t & rest & _ & _ & ->).
    left. exists t. congruence.
  - apply coordinates_inv in H
      as (d & c & f & extra & e & c' & h & rest & _ & _ & _ & _ & _
          & He & _ & _ & ->).
    right. eexists _, _. split; [done|]. split; [done|].
    apply digit_run_spec in He as [He _]. by destruct e.
Qed.

(** ** The kinds of line *)

Lemma classify_name pre t rest :
  all_chars inert pre = true → all_chars is_word_or_space t = true →
  t ≠ "" →
  classify (pre +:+ "<name>" +:+ t +:+ "</name>" +:+ rest) = NameRecord t.
Proof.
  intros Hpre Ht Hne. unfold classify.
  rewrite search_inert by done.
  rewrite (re_search_here _ _ [(1, t)]).
  - simpl. by destruct t.
  - by rewrite pattern_unfold, name_tag_match.
Qed.

Lemma classify_empty_name pre rest :
  all_chars inert pre = true →
  classify (pre +:+ "<name></name>" +:+ rest) = Separator.
Proof.
  intros Hpre. unfold classify.
  rewrite search_inert by done.
  rewrite (re_search_here _ _ [(1, "")]); [done|].
  change ("<name></name>" +:+ rest)
    with ("<name>" +:+ "" +:+ "</name>" +:+ rest).
  by rewrite pattern_unfold, name_tag_match.
Qed.

Lemma classify_coordinates pre d c f extra e c' h rest :
  all_chars inert pre = true →
  digit_run 2 d = true → c ≠ newline → digit_run 6 f = true →
  all_chars is_digit extra = true →
  digit_run 2 e = true → c' ≠ newline → digit_run 6 h = true →
  classify (pre +:+ "-" +:+ d +:+ String c (f +:+ extra +:+ "," +:+ e
                 +:+ String c' (h +:+ rest)))
  = CoordinateRecord ("-" +:+ d +:+ String c f) (e +:+ String c' h).
Proof.
  intros Hpre Hd Hc Hf Hx He Hc' Hh. unfold classify.
  rewrite search_inert by done.
  rewrite (re_search_here _ _
             [(3, e +:+ String c' h); (2, "-" +:+ d +:+ String c f)]).
  - simpl. apply digit_run_spec in He as [He _]. by destruct e.
  - rewrite pattern_unfold.
    rewrite (append_cons "-" ""), append_nil_l, name_tag_first by done.
    by apply coordinates_match.
Qed.

Lemma search_short d f1 e f2 tail :
  digit_run 2 d = true → all_chars is_digit f1 = true →
  digit_run 2 e = true → all_chars is_digit f2 = true →
  String.length f1 < 6 ∨ String.length f2 < 6 →
  stops is_digit tail = true → all_chars inert tail = true →
  re_search pattern
    ("-" +:+ d +:+ "." +:+ f1 +:+ "," +:+ e +:+ "." +:+ f2 +:+ tail) = None.
Proof.
  intros Hd Hf1 He Hf2 Hlen Hstop Htail.
  pose proof (coordinates_short d f1 e f2 tail [] (λ _ g, Some g)
                Hd Hf1 He Hf2 Hlen Hstop) as Hc.
  revert Hc. rewrite (append_cons "-" ""), append_nil_l. intros Hc.
  rewrite re_search_cons, pattern_unfold, name_tag_first, Hc by done.
  apply search_all_inert.
  apply digit_run_spec in Hd as [_ Hd], He as [_ He].
  rewrite !all_chars_app.
  by rewrite (all_chars_impl _ _ d digit_inert Hd),
    (all_chars_impl _ _ f1 digit_inert Hf1),
    (all_chars_impl _ _ e digit_inert He),
    (all_chars_impl _ _ f2 digit_inert Hf2), Htail.
Qed.

(** A line that is a name record holds a name tag whose text is not
    empty. *)
Lemma name_record_shape l t :
  classify l = NameRecord t →
  t ≠ "" ∧ all_chars is_word_or_space t = true
  ∧ ∃ pre rest, l = pre +:+ "<name>" +:+ t +:+ "</name>" +:+ rest.
Proof.
  unfold classify. intros H.
  destruct (re_search pattern l) as [g|] eqn:E; [|done].
  apply re_search_inv in E as (pre & s & -> & E).
  rewrite pattern_unfold in E.
  destruct (matches name_tag s [] (λ _ g, Some g)) as [m|] eqn:En.
  - apply name_tag_inv in En as (t' & rest & -> & Ht & ->).
    simplify_eq. simpl in H. destruct t' as [|c t']; [done|].
    simplify_eq. split; [done|]. split; [done|]. by exists pre, rest.
  - apply coordinates_inv in E
      as (d & c & f & extra & e & c' & h & rest & _ & _ & _ & _ & _
          & He & _ & _ & ->).
    simpl in H. apply digit_run_spec in He as [He _].
    by destruct e.
Qed.

(** A line that is a coordinate record holds, at the leftmost match of the
    pattern, a minus sign, two digits, one character, six digits, any
    digits, a comma, two digits, one character and six digits. *)
Lemma coordinate_record_shape l lon lat :
  classify l = CoordinateRecord lon lat →
  ∃ pre d c f extra e c' h rest,
    l = pre +:+ "-" +:+ d +:+ String c (f +:+ extra +:+ "," +:+ e
                                      +:+ String c' (h +:+ rest))
    ∧ digit_run 2 d = true ∧ c ≠ newline ∧ digit_run 6 f = true
    ∧ all_chars is_digit extra = true
    ∧ digit_run 2 e = true ∧ c' ≠ newline ∧ digit_run 6 h = true
    ∧ lon = "-" +:+ d +:+ String c f ∧ lat = e +:+ String c' h.
Proof.
  unfold classify. intros H.
  destruct (re_search pattern l) as [g|] eqn:E; [|done].
  apply re_search_inv in E as (pre & s & -> & E).
  rewrite pattern_unfold in E.
  destruct (matches name_tag s [] (λ _ g, Some g)) as [m|] eqn:En.
  - apply name_tag_inv in En as (t' & rest & -> & Ht & ->).
    simplify_eq. simpl in H. by destruct t'.
  - apply coordinates_inv in E
      as (d & c & f & extra & e & c' & h & rest & -> & Hd & Hc & Hf & Hx
          & He & Hc' & Hh & ->).
    simpl in H. pose proof He as [He' _]%digit_run_spec.
    destruct e as [|e1 e]; [done|]. simpl in H. simplify_eq.
    by exists pre, d, c, f, extra, (String e1 e), c', h, rest.
Qed.

(** ** Lines on which nothing matches *)

Lemma prefix_append w s : String.prefix w (w +:+ s) = true.
Proof.
  induction w as [|c w IH]; [by destruct s|].
  rewrite append_cons. simpl. destruct (ascii_dec c c); [done|congruence].
Qed.

Lemma may_start_no_match s g k :
  may_start s = false → matches pattern s g k = None.
Proof.
  unfold may_start. intros [Htag Hnum]%orb_false_iff.
  rewrite pattern_unfold.
  destruct (matches name_tag s g k) as [m|] eqn:E.
  { rewrite name_tag_unfold in E.
    apply matches_Str_inv in E as (s' & -> & _).
    by rewrite prefix_append in Htag. }
  destruct s as [|c s]; [done|].
  destruct (Ascii.eqb c "-") eqn:Ec; [|by apply coordinates_first].
  apply Ascii.eqb_eq in Ec as ->.
  destruct (matches coordinates (String "-" s) g k) as [m|] eqn:E'; [|done].
  rewrite coordinates_unfold, degrees_unfold in E'.
  apply rep_class_inv in E' as (run & rest & -> & Hlen & Hrun & _).
  destruct run as [|d run]; [done|]. simpl in Hrun.
  apply andb_true_iff in Hrun as [Hd _].
  rewrite append_cons in Hnum. congruence.
Qed.

Lemma search_quiet s : quiet s = true → re_search pattern s = None.
Proof.
  induction s as [|c s IH]; [done|].
  change (quiet (String c s)) with (negb (may_start (String c s)) && quiet s).
  intros [Hs Hq]%andb_true_iff. apply negb_true_iff in Hs.
  rewrite re_search_cons, may_start_no_match by done. by apply IH.
Qed.

Lemma classify_quiet l : quiet l = true → classify l = Separator.
Proof. intros H. unfold classify. by rewrite search_quiet. Qed.

Lemma inert_may_start c s : inert c = true → may_start (String c s) = false.
Proof.
  unfold inert, may_start. intros [H1 H2]%andb_true_iff.
  apply negb_true_iff in H1, H2.
  apply Ascii.eqb_neq in H1, H2. simpl.
  destruct (ascii_dec "<" c) as [<-|_]; [done|].
  destruct c as [[][][][][][][][]]; done.
Qed.

Lemma quiet_inert_cons c s :
  inert c = true → quiet (String c s) = quiet s.
Proof.
  intros H.
  change (quiet (String c s)) with (negb (may_start (String c s)) && quiet s).
  by rewrite inert_may_start.
Qed.

Lemma digits_inert s : all_chars is_digit s = true → all_chars inert s = true.
Proof. apply all_chars_impl, digit_inert. Qed.

Lemma digit_run_inert n s : digit_run n s = true → all_chars inert s = true.
Proof. intros [_ H]%digit_run_spec. by apply digits_inert. Qed.

Lemma quiet_inert_app a b :
  all_chars inert a = true → quiet (a +:+ b) = quiet b.
Proof.
  induction a as [|c a IH]; [done|].
  intros [Hc Ha]%andb_true_iff.
  by rewrite append_cons, quiet_inert_cons, IH.
Qed.

(** Whether a word without a minus sign begins a text does not depend on
    what follows the first minus sign of the text. *)
Lemma prefix_minus w a rest :
  all_chars (λ c, negb (Ascii.eqb c "-")) w = true →
  String.prefix w (a +:+ String "-" rest) = String.prefix w (a +:+ "-").
Proof.
  revert a. induction w as [|x w IH]; intros a Hw.
  { by destruct a. }
  simpl in Hw. apply andb_true_iff in Hw as [Hx Hw].
  apply negb_true_iff, Ascii.eqb_neq in Hx.
  destruct a as [|y a].
  - rewrite !append_nil_l. simpl. by destruct (ascii_dec x "-").
  - rewrite !append_cons. simpl. destruct (ascii_dec x y); [|done].
    by apply IH.
Qed.

Lemma may_start_minus a rest :
  may_start (a +:+ String "-" rest) = may_start (a +:+ "-")
  ∨ a = "".
Proof.
  destruct a as [|c a]; [by right|]. left.
  unfold may_start. rewrite prefix_minus by done. f_equal.
  rewrite !append_cons. by destruct a.
Qed.

(** No match starts before a minus sign that follows a quiet text. *)
Lemma search_quiet_prefix pre rest :
  quiet (pre +:+ "-") = true →
  re_search pattern (pre +:+ String "-" rest)
  = re_search pattern (String "-" rest).
Proof.
  induction pre as [|c pre IH]; [done|]. rewrite !append_cons.
  change (quiet (String c (pre +:+ "-")))
    with (negb (may_start (String c (pre +:+ "-"))) && quiet (pre +:+ "-")).
  intros [Hs Hq]%andb_true_iff. apply negb_true_iff in Hs.
  rewrite re_search_cons, may_start_no_match; [by apply IH|].
  destruct (may_start_minus (String c pre) rest) as [H|]; [|done].
  rewrite !append_cons in H. by rewrite H.
Qed.

(** ** Floats *)

Lemma py_float_raises s e : py_float s = Raise e → e = ValueError.
Proof. unfold py_float. intros H. repeat case_match; congruence. Qed.

Lemma number_app acc a b : number acc (a +:+ b) = number (number acc a) b.
Proof.
  revert acc. induction a as [|c a IH]; intros acc; [done|].
  rewrite append_cons. simpl. apply IH.
Qed.

Lemma digitpart_run acc cnt run rest :
  all_chars is_digit run = true →
  digitpart acc cnt (run +:+ rest)
  = digitpart (number acc run) (cnt + String.length run) rest.
Proof.
  revert acc cnt. induction run as [|c run IH]; intros acc cnt Hrun.
  - rewrite append_nil_l. simpl. by rewrite Nat.add_0_r.
  - simpl in Hrun. apply andb_true_iff in Hrun as [Hc Hrun].
    rewrite append_cons. simpl. rewrite Hc, IH by done.
    f_equal. lia.
Qed.

Lemma digits_run acc c run rest :
  is_digit c = true → all_chars is_digit run = true →
  digits acc (String c run +:+ rest)
  = Some (digitpart (number acc (String c run)) (S (String.length run)) rest).
Proof.
  intros Hc Hrun. rewrite append_cons. simpl. rewrite Hc.
  by rewrite digitpart_run.
Qed.

Lemma sign_digit c s :
  is_digit c = true → sign (String c s) = (false, String c s).
Proof.
  intros H. simpl.
  destruct (Ascii.eqb_spec c "-") as [->|]; [done|].
  destruct (Ascii.eqb_spec c "+") as [->|]; [done|].
  destruct c as [[][][][][][][][]]; done.
Qed.

(** [float] on a sign, two digits, a decimal point and six digits. *)
Lemma py_float_degrees neg d f :
  digit_run 2 d = true → digit_run 6 f = true →
  py_float ((if neg : bool then "-" else "") +:+ d +:+ "." +:+ f)
  = Ok (Dec neg (number 0 (d +:+ f)) (-6)).
Proof.
  intros [Hd1 Hd2]%digit_run_spec [Hf1 Hf2]%digit_run_spec.
  destruct d as [|d1 d]; [done|]. destruct f as [|f1 f]; [done|].
  simpl in Hd2, Hf2.
  apply andb_true_iff in Hd2 as [Hd1' Hd2], Hf2 as [Hf1' Hf2].
  assert (sign ((if neg then "-" else "") +:+ String d1 d +:+ "." +:+ String f1 f)
          = (neg, String d1 d +:+ "." +:+ String f1 f)) as Hsign.
  { destruct neg; [done|]. rewrite append_nil_l, append_cons.
    by apply sign_digit. }
  unfold py_float. rewrite Hsign, digits_run by done.
  change ("." +:+ String f1 f) with (String "." (String f1 f)).
  change (digitpart ?a ?n (String "." ?s)) with (a, n, String "." s).
  cbv beta iota.
  rewrite <- (append_nil_r (String f1 f)) at 1.
  rewrite digits_run by done.
  change (digitpart ?a ?n "") with (a, n, "").
  cbv beta iota. simpl exponent. cbv beta iota.
  rewrite number_app. do 2 f_equal.
  simpl in Hf1. injection Hf1 as ->. done.
Qed.

(** ** The simplifier *)

Section SimplifierFacts.

Variable simplify_coords : list point → pyfloat → list point.
Variable str_float : pyfloat → string.

Lemma Simplified_cons inpoints x xs :
  simplify_coords inpoints lineWidth = x :: xs →
  Simplified simplify_coords str_float inpoints
  = Ok (rendered str_float x
        :: (rendered str_float <$> xs) ++ [rendered str_float x]).
Proof.
  intros H. unfold Simplified. rewrite H. simpl.
  by rewrite fmap_app, <- list_fmap_compose.
Qed.

Lemma Simplified_nil inpoints :
  simplify_coords inpoints lineWidth = [] →
  Simplified simplify_coords str_float inpoints = Raise IndexError.
Proof. intros H. unfold Simplified. by rewrite H. Qed.

Lemma Simplified_ok inpoints :
  keeps_a_point simplify_coords → inpoints ≠ [] →
  ∃ x xs, simplify_coords inpoints lineWidth = x :: xs
    ∧ Simplified simplify_coords str_float inpoints
      = Ok (rendered str_float x
            :: (rendered str_float <$> xs) ++ [rendered str_float x]).
Proof.
  intros Hlib Hne.
  destruct (simplify_coords inpoints lineWidth) as [|x xs] eqn:E.
  - by destruct (Hlib inpoints lineWidth Hne).
  - exists x, xs. split; [done|]. by apply Simplified_cons.
Qed.

End SimplifierFacts.

Lemma reference_keeps_a_point : keeps_a_point Reference.simplify_coords.
Proof. intros [|a rest] tol Hne; [done|]. discriminate. Qed.

(** C2: for every non-empty sequence of points the output of [Simplified]
    begins and ends with the same text.  The last element is a copy of the
    first, added after the reduction whatever the reduced line looks like:
    the output is the reduced line, rendered, plus that one element. *)
Theorem Simplified_closed simplify_coords str_float (inpoints : list point) :
  keeps_a_point simplify_coords → inpoints ≠ [] →
  ∃ out first,
    Simplified simplify_coords str_float inpoints = Ok out
    ∧ head out = Some first ∧ last out = Some first
    ∧ out = (rendered str_float <$> simplify_coords inpoints lineWidth)
            ++ [first].
Proof.
  intros Hlib Hne.
  destruct (Simplified_ok simplify_coords str_float inpoints Hlib Hne)
    as (x & xs & Hs & Hout).
  exists (rendered str_float x :: (rendered str_float <$> xs)
          ++ [rendered str_float x]), (rendered str_float x).
  repeat split; [done| |by rewrite Hs].
  by rewrite app_comm_cons, last_snoc.
Qed.

Lemma Simplified_closed_witness :
  ∃ out first,
    Simplified Reference.simplify_coords Reference.str_float square = Ok out
    ∧ head out = Some first ∧ last out = Some first
    ∧ out = (rendered Reference.str_float
               <$> Reference.simplify_coords square lineWidth) ++ [first].
Proof.
  apply (Simplified_closed Reference.simplify_coords Reference.str_float square).
  - exact reference_keeps_a_point.
  - discriminate.
Defined.

(** C5: for every sequence of at least one point the output of
    [Simplified] has at least two elements, one more than the reduced
    line. *)
Theorem Simplified_length simplify_coords str_float (inpoints : list point) :
  keeps_a_point simplify_coords → 1 ≤ length inpoints →
  ∃ out,
    Simplified simplify_coords str_float inpoints = Ok out
    ∧ 2 ≤ length out
    ∧ length out = S (length (simplify_coords inpoints lineWidth)).
Proof.
  intros Hlib Hlen.
  assert (Hne : inpoints ≠ []) by (destruct inpoints; [simpl in Hlen; lia|done]).
  destruct (Simplified_ok simplify_coords str_float inpoints Hlib Hne)
    as (x & xs & Hs & Hout).
  eexists. split; [exact Hout|]. rewrite Hs. simpl.
  rewrite length_app, length_fmap. simpl. lia.
Qed.

Lemma Simplified_length_witness :
  ∃ out,
    Simplified Reference.simplify_coords Reference.str_float
      [[Dec true 98000000 (-6); Dec false 30000000 (-6)]] = Ok out
    ∧ 2 ≤ length out
    ∧ length out
      = S (length (Reference.simplify_coords
                     [[Dec true 98000000 (-6); Dec false 30000000 (-6)]]
                     lineWidth)).
Proof.
  apply (Simplified_length Reference.simplify_coords Reference.str_float).
  - exact reference_keeps_a_point.
  - simpl. lia.
Defined.

(** C6: called with no points, [Simplified] raises an exception and returns
    nothing: the reduced line is empty, and line 71 reads the first element
    of an empty list.  Python's name for this failure is [IndexError]. *)
Theorem Simplified_empty_fails simplify_coords str_float :
  simplify_coords [] lineWidth = [] →
  Simplified simplify_coords str_float [] = Raise IndexError
  ∧ ∀ out, Simplified simplify_coords str_float [] ≠ Ok out.
Proof.
  intros H. rewrite (Simplified_nil _ _ _ H). by split.
Qed.

Lemma Simplified_empty_fails_witness :
  Simplified Reference.simplify_coords Reference.str_float [] = Raise IndexError
  ∧ ∀ out, Simplified Reference.simplify_coords Reference.str_float [] ≠ Ok out.
Proof.
  apply (Simplified_empty_fails Reference.simplify_coords Reference.str_float).
  reflexivity.
Defined.

(** ** The loop *)

Section LoopFacts.

Variable simplify_coords : list point → pyfloat → list point.
Variable str_float : pyfloat → string.

(** The body of the loop is decided by the kind of the line. *)
Lemma step_classify st l :
  step simplify_coords str_float st l =
  match classify l with
  | NameRecord captured => (set_name st captured, Continue)
  | CoordinateRecord lon lat => append_point st lon lat
  | Separator =>
      match points st with
      | [] => (st, Continue)
      | _ :: _ => flush simplify_coords str_float st
      end
  end.
Proof.
  unfold step, classify.
  destruct (truthy (group (re_search pattern l) 1)); [done|].
  destruct (truthy (group (re_search pattern l) 2)
            && truthy (group (re_search pattern l) 3)); [done|].
  by destruct (points st).
Qed.

Lemma run_app st lines1 lines2 :
  run simplify_coords str_float st (lines1 ++ lines2) =
  match run simplify_coords str_float st lines1 with
  | (st', Continue) => run simplify_coords str_float st' lines2
  | (st', Raised e) => (st', Raised e)
  end.
Proof.
  revert st. induction lines1 as [|l lines1 IH]; intros st; [done|].
  simpl. destruct (step simplify_coords str_float st l) as [st' [|e]]; [|done].
  apply IH.
Qed.

Lemma append_point_calls st lon lat :
  calls (append_point st lon lat).1 = calls st.
Proof.
  unfold append_point.
  destruct (py_float lon); [|done]. by destruct (py_float lat).
Qed.

Lemma append_point_outcome st lon lat :
  (append_point st lon lat).2 ≠ Raised IndexError.
Proof.
  unfold append_point.
  destruct (py_float lon) as [x|e] eqn:Ex.
  - destruct (py_float lat) as [y|e] eqn:Ey; [done|].
    apply py_float_raises in Ey as ->. done.
  - apply py_float_raises in Ex as ->. done.
Qed.

Lemma KmlOut_raises n pts w e : KmlOut n pts w = Raise e → e = OSError.
Proof. unfold KmlOut. destruct (writable w _); congruence. Qed.

Lemma flush_calls st :
  calls (flush simplify_coords str_float st).1 = calls st ++ [points st].
Proof.
  unfold flush.
  destruct (Simplified simplify_coords str_float (points st)); [|done].
  by destruct (KmlOut _ _ _).
Qed.

Lemma flush_name st : name (flush simplify_coords str_float st).1 = name st.
Proof.
  unfold flush.
  destruct (Simplified simplify_coords str_float (points st)); [|done].
  by destruct (KmlOut _ _ _).
Qed.

(** [float] is not called when the pending points are handed over. *)
Lemma flush_not_ValueError st :
  (flush simplify_coords str_float st).2 ≠ Raised ValueError.
Proof.
  unfold flush, Simplified.
  destruct (transform str_float <$> simplify_coords (points st) lineWidth);
    [done|].
  destruct (KmlOut _ _ _) as [w|e] eqn:E; [done|].
  by apply KmlOut_raises in E as ->.
Qed.

(** One turn of the loop calls [Simplified] at most once, and then with
    the pending points, of which there is at least one. *)
Lemma step_calls st l :
  calls (step simplify_coords str_float st l).1 = calls st
  ∨ (calls (step simplify_coords str_float st l).1 = calls st ++ [points st]
     ∧ points st ≠ [] ∧ classify l = Separator).
Proof.
  rewrite step_classify. destruct (classify l) as [t|lon lat|].
  - by left.
  - left. apply append_point_calls.
  - destruct (points st) as [|p ps] eqn:E; [by left|].
    right. rewrite flush_calls, E. done.
Qed.

Lemma step_outcome st l :
  keeps_a_point simplify_coords →
  (step simplify_coords str_float st l).2 ≠ Raised IndexError.
Proof.
  intros Hlib. rewrite step_classify. destruct (classify l) as [t|lon lat|].
  - done.
  - apply append_point_outcome.
  - destruct (points st) as [|p ps] eqn:E; [done|].
    unfold flush. rewrite E.
    destruct (Simplified_ok simplify_coords str_float (p :: ps) Hlib)
      as (x & xs & _ & ->); [done|].
    destruct (KmlOut _ _ _) as [w|e] eqn:Ek; [done|].
    by apply KmlOut_raises in Ek as ->.
Qed.

Lemma run_calls st lines :
  Forall (λ pts, pts ≠ []) (calls st) →
  Forall (λ pts, pts ≠ []) (calls (run simplify_coords str_float st lines).1).
Proof.
  revert st. induction lines as [|l lines IH]; intros st Hst; [done|].
  simpl.
  assert (Forall (λ pts, pts ≠ [])
            (calls (step simplify_coords str_float st l).1)) as Hstep.
  { destruct (step_calls st l) as [->|(-> & Hne & _)]; [done|].
    apply Forall_app. split; [done|]. by constructor. }
  destruct (step simplify_coords str_float st l) as [st' [|e]]; [|done].
  by apply IH.
Qed.

Lemma run_outcome st lines :
  keeps_a_point simplify_coords →
  (run simplify_coords str_float st lines).2 ≠ Raised IndexError.
Proof.
  intros Hlib. revert st.
  induction lines as [|l lines IH]; intros st; [done|].
  simpl. pose proof (step_outcome st l Hlib) as Hstep.
  destruct (step simplify_coords str_float st l) as [st' [|e]]; [|done].
  apply IH.
Qed.

End LoopFacts.

(** C9: while the script runs, [Simplified] is only ever called with at
    least one point, because line 165 tests for pending points before the
    call; the script therefore never fails at line 71, where the first
    element of the output is read. *)
Theorem Simplified_never_called_empty simplify_coords str_float w lines :
  keeps_a_point simplify_coords →
  Forall (λ pts, 1 ≤ length pts)
    (calls (script simplify_coords str_float w lines).1)
  ∧ (script simplify_coords str_float w lines).2 ≠ Raised IndexError.
Proof.
  intros Hlib. split.
  - eapply Forall_impl.
    + apply (run_calls simplify_coords str_float (initial w) lines). constructor.
    + intros [|p ps] Hne; [done|]. simpl. lia.
  - by apply run_outcome.
Qed.

Lemma Simplified_never_called_empty_witness :
  Forall (λ pts, 1 ≤ length pts)
    (calls (script Reference.simplify_coords Reference.str_float
              empty_world grouping_lines).1)
  ∧ (script Reference.simplify_coords Reference.str_float
       empty_world grouping_lines).2 ≠ Raised IndexError.
Proof.
  apply (Simplified_never_called_empty Reference.simplify_coords
           Reference.str_float empty_world grouping_lines).
  exact reference_keeps_a_point.
Defined.

(** C8: a name record met while points are pending only changes [name]:
    the pending points, the files and the console stay as they are and
    [Simplified] is not called.  A turn of the loop that does hand the
    points over is a turn on a separator line. *)
Theorem name_record_keeps_points simplify_coords str_float st l captured :
  classify l = NameRecord captured →
  step simplify_coords str_float st l
  = ({| name := replace " " "_" captured; points := points st;
        env := env st; calls := calls st |}, Continue)
  ∧ ∀ st' l',
      calls (step simplify_coords str_float st' l').1 ≠ calls st'
      ∨ env (step simplify_coords str_float st' l').1 ≠ env st' →
      classify l' = Separator ∧ points st' ≠ [].
Proof.
  intros H. split.
  - by rewrite step_classify, H.
  - intros st' l' Hchange. rewrite step_classify in Hchange.
    destruct (classify l') as [t|lon lat|].
    + by destruct Hchange.
    + unfold append_point in Hchange.
      destruct (py_float lon); [|by destruct Hchange].
      destruct (py_float lat); by destruct Hchange.
    + split; [done|]. destruct (points st'); [|done]. by destruct Hchange.
Qed.

Lemma name_record_keeps_points_witness :
  step Reference.simplify_coords Reference.str_float pending
    "<name>Bell County</name>"
  = ({| name := "Bell_County"; points := points pending;
        env := env pending; calls := calls pending |}, Continue)
  ∧ ∀ st' l',
      calls (step Reference.simplify_coords Reference.str_float st' l').1
        ≠ calls st'
      ∨ env (step Reference.simplify_coords Reference.str_float st' l').1
        ≠ env st' →
      classify l' = Separator ∧ points st' ≠ [].
Proof.
  apply (name_record_keeps_points Reference.simplify_coords
           Reference.str_float pending "<name>Bell County</name>"
           "Bell County").
  reflexivity.
Defined.

(** C10: a line on which the pattern finds a name tag with an empty text
    is not a name record: [name] keeps its value, and the line is a
    separator, which hands over the pending points if there are any and
    does nothing otherwise. *)
Theorem empty_name_is_separator simplify_coords str_float st l g :
  re_search pattern l = Some g → lookup_group 1 g = Some "" →
  classify l = Separator
  ∧ name (step simplify_coords str_float st l).1 = name st
  ∧ step simplify_coords str_float st l
    = match points st with
      | [] => (st, Continue)
      | _ :: _ => flush simplify_coords str_float st
      end.
Proof.
  intros Hs Hg.
  assert (classify l = Separator) as Hsep.
  { unfold classify. rewrite Hs.
    destruct (search_pattern_groups l g Hs)
      as [[t ->]|(lon & lat & -> & _ & _)]; [|done].
    simpl in Hg. by simplify_eq. }
  split; [done|]. rewrite step_classify, Hsep.
  split; [|done]. destruct (points st); [done|]. apply flush_name.
Qed.

Lemma empty_name_is_separator_witness :
  classify "<name></name>" = Separator
  ∧ name (step Reference.simplify_coords Reference.str_float pending
            "<name></name>").1 = name pending
  ∧ step Reference.simplify_coords Reference.str_float pending "<name></name>"
    = match points pending with
      | [] => (pending, Continue)
      | _ :: _ => flush Reference.simplify_coords Reference.str_float pending
      end.
Proof.
  apply (empty_name_is_separator Reference.simplify_coords
           Reference.str_float pending "<name></name>" [(1, "")]);
    reflexivity.
Defined.

Lemma flush_outcome simplify_coords str_float st :
  keeps_a_point simplify_coords → points st ≠ [] →
  writable (env st) (path_of (name st)) = true →
  (flush simplify_coords str_float st).2 = Continue.
Proof.
  intros Hlib Hne Hw. unfold flush.
  destruct (Simplified_ok simplify_coords str_float (points st) Hlib Hne)
    as (x & xs & _ & ->).
  unfold KmlOut. unfold path_of in Hw. by rewrite Hw.
Qed.

Lemma step_separator simplify_coords str_float st l :
  classify l = Separator →
  step simplify_coords str_float st l
  = match points st with
    | [] => (st, Continue)
    | _ :: _ => flush simplify_coords str_float st
    end.
Proof. intros H. by rewrite step_classify, H. Qed.

Lemma classify_after_quiet pre rest :
  quiet (pre +:+ "-") = true →
  classify (pre +:+ String "-" rest) = classify (String "-" rest).
Proof. intros H. unfold classify. by rewrite search_quiet_prefix. Qed.

Lemma search_short_quiet d f1 e f2 tail :
  digit_run 2 d = true → all_chars is_digit f1 = true →
  digit_run 2 e = true → all_chars is_digit f2 = true →
  String.length f1 < 6 ∨ String.length f2 < 6 →
  stops is_digit tail = true → quiet tail = true →
  re_search pattern
    (String "-" (d +:+ "." +:+ f1 +:+ "," +:+ e +:+ "." +:+ f2 +:+ tail))
  = None.
Proof.
  intros Hd Hf1 He Hf2 Hlen Hstop Htail.
  pose proof (coordinates_short d f1 e f2 tail [] (λ _ g, Some g)
                Hd Hf1 He Hf2 Hlen Hstop) as Hc.
  revert Hc. rewrite (append_cons "-" ""), append_nil_l. intros Hc.
  rewrite re_search_cons, pattern_unfold, name_tag_first, Hc by done.
  apply search_quiet.
  rewrite (quiet_inert_app d) by (by apply (digit_run_inert 2)).
  rewrite (quiet_inert_app ".") by done.
  rewrite (quiet_inert_app f1) by (by apply digits_inert).
  rewrite (quiet_inert_app ",") by done.
  rewrite (quiet_inert_app e) by (by apply (digit_run_inert 2)).
  rewrite (quiet_inert_app ".") by done.
  by rewrite (quiet_inert_app f2) by (by apply digits_inert).
Qed.

(** C4: a line that looks like a pair of coordinates but has fewer than
    six digits after one of its decimal points is not a coordinate record
    and is not an error: [float] is not applied to it, so it raises no
    [ValueError].  It is a separator like any other: it does what every
    separator line does in the same state, which is nothing when no point
    is pending and the handing over of the pending points (which may cut a
    group short) when there are some.  The pair may come after any text in
    which no match starts, and be followed by such a text. *)
Theorem short_fraction_is_separator simplify_coords str_float st
    pre d f1 e f2 tail :
  quiet (pre +:+ "-") = true →
  digit_run 2 d = true → all_chars is_digit f1 = true →
  digit_run 2 e = true → all_chars is_digit f2 = true →
  String.length f1 < 6 ∨ String.length f2 < 6 →
  stops is_digit tail = true → quiet tail = true →
  let l := pre +:+ "-" +:+ d +:+ "." +:+ f1 +:+ "," +:+ e +:+ "." +:+ f2
               +:+ tail in
  classify l = Separator
  ∧ step simplify_coords str_float st l
    = match points st with
      | [] => (st, Continue)
      | _ :: _ => flush simplify_coords str_float st
      end
  ∧ (step simplify_coords str_float st l).2 ≠ Raised ValueError
  ∧ ∀ sep, classify sep = Separator →
      step simplify_coords str_float st l
      = step simplify_coords str_float st sep.
Proof.
  intros Hpre Hd Hf1 He Hf2 Hlen Hstop Htail l.
  assert (classify l = Separator) as Hsep.
  { unfold l. rewrite (append_cons "-" ""), append_nil_l.
    rewrite classify_after_quiet by done.
    unfold classify. by rewrite search_short_quiet. }
  split; [done|]. rewrite step_separator by done. split; [done|]. split.
  - destruct (points st); [done|]. apply flush_not_ValueError.
  - intros sep Hs. by rewrite step_separator.
Qed.

Lemma short_fraction_is_separator_witness :
  classify ("    -97.7678,29.4345</coordinates>" +:+ nl) = Separator
  ∧ step Reference.simplify_coords Reference.str_float pending
      ("    -97.7678,29.4345</coordinates>" +:+ nl)
    = flush Reference.simplify_coords Reference.str_float pending
  ∧ (step Reference.simplify_coords Reference.str_float pending
       ("    -97.7678,29.4345</coordinates>" +:+ nl)).2 ≠ Raised ValueError
  ∧ ∀ sep, classify sep = Separator →
      step Reference.simplify_coords Reference.str_float pending
        ("    -97.7678,29.4345</coordinates>" +:+ nl)
      = step Reference.simplify_coords Reference.str_float pending sep.
Proof.
  apply (short_fraction_is_separator Reference.simplify_coords
           Reference.str_float pending "    " "97" "7678" "29" "4345"
           ("</coordinates>" +:+ nl)).
  - reflexivity.
  - reflexivity.
  - reflexivity.
  - reflexivity.
  - reflexivity.
  - left. simpl. lia.
  - reflexivity.
  - reflexivity.
Defined.

Lemma length_replace old new s :
  String.length (replace old new s) = String.length s.
Proof. induction s as [|c s IH]; simpl; by f_equal. Qed.

Lemma get_replace old new s i :
  String.get i (replace old new s)
  = (λ c, if Ascii.eqb c old then new else c) <$> String.get i s.
Proof.
  revert i. induction s as [|c s IH]; intros i; [by destruct i|].
  destruct i as [|i]; [done|]. simpl. apply IH.
Qed.

(** C7, as the script does it: on a name record, [name] becomes the
    captured text with every space character replaced by an underscore,
    one for one; all other characters, other whitespace included, are
    kept.  The name "Bell County" becomes "Bell_County". *)
Theorem name_spaces_replaced simplify_coords str_float st l captured :
  classify l = NameRecord captured →
  name (step simplify_coords str_float st l).1 = replace " " "_" captured
  ∧ String.length (name (step simplify_coords str_float st l).1)
    = String.length captured
  ∧ (∀ i, String.get i (name (step simplify_coords str_float st l).1)
          = (λ c, if Ascii.eqb c " " then "_"%char else c)
              <$> String.get i captured)
  ∧ (captured = "Bell County" →
     name (step simplify_coords str_float st l).1 = "Bell_County").
Proof.
  intros H. rewrite step_classify, H. simpl.
  split; [done|]. split; [apply length_replace|].
  split; [intros i; apply get_replace|]. by intros ->.
Qed.

Lemma name_spaces_replaced_witness :
  name (step Reference.simplify_coords Reference.str_float
          (initial empty_world) "<name>Bell County</name>").1
  = "Bell_County"
  ∧ String.length
      (name (step Reference.simplify_coords Reference.str_float
               (initial empty_world) "<name>Bell County</name>").1)
    = 11
  ∧ (∀ i, String.get i
            (name (step Reference.simplify_coords Reference.str_float
                     (initial empty_world) "<name>Bell County</name>").1)
          = (λ c, if Ascii.eqb c " " then "_"%char else c)
              <$> String.get i "Bell County")
  ∧ ("Bell County" = "Bell County" →
     name (step Reference.simplify_coords Reference.str_float
             (initial empty_world) "<name>Bell County</name>").1
     = "Bell_County").
Proof.
  apply (name_spaces_replaced Reference.simplify_coords Reference.str_float
           (initial empty_world) "<name>Bell County</name>" "Bell County").
  reflexivity.
Defined.

(** C7 as the specification words it does not hold: a tab inside a name is
    whitespace but is kept, and a run of two spaces becomes two
    underscores, not one join character. *)
Lemma whitespace_runs_not_joined :
  (classify ("<name>Bell" +:+ tab +:+ "County</name>")
   = NameRecord ("Bell" +:+ tab +:+ "County")
   ∧ name (step Reference.simplify_coords Reference.str_float
             (initial empty_world)
             ("<name>Bell" +:+ tab +:+ "County</name>")).1
     = "Bell" +:+ tab +:+ "County"
   ∧ spec_sanitize ("Bell" +:+ tab +:+ "County") = "Bell_County")
  ∧ (classify "<name>Bell  County</name>" = NameRecord "Bell  County"
     ∧ name (step Reference.simplify_coords Reference.str_float
               (initial empty_world) "<name>Bell  County</name>").1
       = "Bell__County"
     ∧ spec_sanitize "Bell  County" = "Bell_County")
  ∧ ¬ (∀ st l captured,
         classify l = NameRecord captured →
         name (step Reference.simplify_coords Reference.str_float st l).1
         = spec_sanitize captured).
Proof.
  split; [by vm_compute|]. split; [by vm_compute|].
  intros H.
  specialize (H (initial empty_world) "<name>Bell  County</name>"
                "Bell  County" eq_refl).
  vm_compute in H. discriminate.
Qed.

Lemma spec_coordinate_line_has_point l :
  spec_coordinate_line l →
  all_chars (λ x, negb (Ascii.eqb x ".")) l = false.
Proof.
  intros (pre & d & f & extra & e & h & rest & -> & _).
  rewrite <- (append_assoc "-" d), <- (append_assoc pre).
  rewrite (append_cons "." ""), append_nil_l.
  apply contains_char.
Qed.

(** C3: the claim holds the code to its own comment, which shows the
    geodata as "-97.7678364872634,29.43458974957393", but the dot of the
    pattern at line 158 is not escaped and stands for any character.  At
    the line "-971234567,291234567", which holds no decimal point and so no
    number of the form the claim names, the script finds a coordinate record
    and appends the point (-971234567.0, 291234567.0). *)
Theorem unescaped_dot_accepts_line_without_point simplify_coords str_float :
  ¬ spec_coordinate_line "-971234567,291234567"
  ∧ classify "-971234567,291234567"
    = CoordinateRecord "-971234567" "291234567"
  ∧ step simplify_coords str_float (initial empty_world)
      "-971234567,291234567"
    = ({| name := "";
          points := [[Dec true 971234567 0; Dec false 291234567 0]];
          env := empty_world; calls := [] |}, Continue).
Proof.
  split; [|split].
  - intros H%spec_coordinate_line_has_point. by vm_compute in H.
  - by vm_compute.
  - rewrite step_classify.
    assert (classify "-971234567,291234567"
            = CoordinateRecord "-971234567" "291234567") as ->
      by (by vm_compute).
    by vm_compute.
Qed.

(** X19: a line on which a pair "-DD.DDDDDD", "DD.DDDDDD" (each possibly
    followed by more digits, a comma between them) comes after a text in
    which no match starts is a coordinate record, whatever follows the
    pair.  The point appended for it is made of the sign, the two digits
    and the first six digits after the decimal point of each number; the
    digits beyond the sixth take no part in it, so the numbers are cut,
    not rounded. *)
Theorem coordinate_record_truncates simplify_coords str_float st
    pre d f extra e h rest :
  quiet (pre +:+ "-") = true →
  digit_run 2 d = true → digit_run 6 f = true →
  all_chars is_digit extra = true →
  digit_run 2 e = true → digit_run 6 h = true →
  let l := pre +:+ "-" +:+ d +:+ "." +:+ f +:+ extra +:+ ","
               +:+ e +:+ "." +:+ h +:+ rest in
  classify l = CoordinateRecord ("-" +:+ d +:+ "." +:+ f) (e +:+ "." +:+ h)
  ∧ step simplify_coords str_float st l
    = ({| name := name st;
          points := points st ++ [[Dec true (number 0 (d +:+ f)) (-6);
                                   Dec false (number 0 (e +:+ h)) (-6)]];
          env := env st; calls := calls st |}, Continue).
Proof.
  intros Hpre Hd Hf Hx He Hh l.
  assert (classify l
          = CoordinateRecord ("-" +:+ d +:+ "." +:+ f) (e +:+ "." +:+ h))
    as Hc.
  { unfold l. rewrite (append_cons "-" ""), append_nil_l.
    rewrite classify_after_quiet by done.
    by apply (classify_coordinates "" d "." f extra e "." h rest). }
  split; [done|]. rewrite step_classify, Hc. unfold append_point.
  rewrite (py_float_degrees true d f Hd Hf).
  change (e +:+ "." +:+ h) with ("" +:+ e +:+ "." +:+ h).
  by rewrite (py_float_degrees false e h He Hh).
Qed.

Lemma coordinate_record_truncates_witness :
  classify ("<coordinates>-97.76783648,29.43458974957393" +:+ nl)
  = CoordinateRecord "-97.767836" "29.434589"
  ∧ step Reference.simplify_coords Reference.str_float (initial empty_world)
      ("<coordinates>-97.76783648,29.43458974957393" +:+ nl)
    = ({| name := "";
          points := [[Dec true 97767836 (-6); Dec false 29434589 (-6)]];
          env := empty_world; calls := [] |}, Continue).
Proof.
  apply (coordinate_record_truncates Reference.simplify_coords
           Reference.str_float (initial empty_world)
           "<coordinates>" "97" "767836" "48" "29" "434589"
           ("74957393" +:+ nl));
    reflexivity.
Defined.

(** C1 as the specification words it does not hold: on the lines of the
    grouping example the script writes the file of group A only.  When the
    lines run out the point of group B is still pending, [Simplified] has
    been called once, and no file exists for B; with a separator line
    after the last point the file is written. *)
Lemma last_group_not_flushed :
  let r := script Reference.simplify_coords Reference.str_float
             empty_world grouping_lines in
  let r' := script Reference.simplify_coords Reference.str_float
              empty_world (grouping_lines ++ ["---"]) in
  r.2 = Continue
  ∧ name r.1 = "B"
  ∧ points r.1 = [[Dec true 98000000 (-6); Dec false 30000000 (-6)]]
  ∧ calls r.1 = [[[Dec true 97123456 (-6); Dec false 29123456 (-6)];
                  [Dec true 97223456 (-6); Dec false 29223456 (-6)]]]
  ∧ stdout (env r.1) = ["wrote file for A -- length: 3"]
  ∧ files (env r.1) !! "B_points.kml" = None
  ∧ is_Some (files (env r'.1) !! "B_points.kml")
  ∧ r ≠ r'.
Proof.
  vm_compute. repeat split; try done. eexists; reflexivity.
Qed.

(** C1, as the script does it: nothing follows the loop, so when the lines
    run out the pending points are not handed over.  After an input whose
    last line is a coordinate record the point of that line is pending
    with the points before it, and the files, the console and the calls of
    [Simplified] are those of the input without its last line.  The group
    is handed over when a separator line follows it. *)
Theorem last_group_needs_separator simplify_coords str_float
    st lines st1 l lon lat x y :
  run simplify_coords str_float st lines = (st1, Continue) →
  classify l = CoordinateRecord lon lat →
  py_float lon = Ok x → py_float lat = Ok y →
  let st2 := {| name := name st1; points := points st1 ++ [[x; y]];
                env := env st1; calls := calls st1 |} in
  run simplify_coords str_float st (lines ++ [l]) = (st2, Continue)
  ∧ ∀ sep, classify sep = Separator →
      run simplify_coords str_float st (lines ++ [l; sep])
      = flush simplify_coords str_float st2.
Proof.
  intros Hrun Hl Hx Hy st2.
  assert (step simplify_coords str_float st1 l = (st2, Continue)) as Hstep.
  { rewrite step_classify, Hl. unfold append_point. by rewrite Hx, Hy. }
  split.
  - rewrite run_app, Hrun. simpl. by rewrite Hstep.
  - intros sep Hsep. rewrite run_app, Hrun. simpl. rewrite Hstep.
    rewrite step_classify, Hsep.
    assert (points st2 = points st1 ++ [[x; y]]) as Hp by done.
    destruct (points st2) as [|p ps] eqn:E.
    + by destruct (points st1).
    + by destruct (flush simplify_coords str_float st2) as [st3 [|err]].
Qed.

Lemma last_group_needs_separator_witness :
  let st2 := {| name := "B";
                points := [[Dec true 98000000 (-6); Dec false 30000000 (-6)]];
                env := env (script Reference.simplify_coords
                              Reference.str_float empty_world
                              (take 5 grouping_lines)).1;
                calls := calls (script Reference.simplify_coords
                                  Reference.str_float empty_world
                                  (take 5 grouping_lines)).1 |} in
  run Reference.simplify_coords Reference.str_float (initial empty_world)
    (take 5 grouping_lines ++ ["-98.000000,30.000000"]) = (st2, Continue)
  ∧ ∀ sep, classify sep = Separator →
      run Reference.simplify_coords Reference.str_float (initial empty_world)
        (take 5 grouping_lines ++ ["-98.000000,30.000000"; sep])
      = flush Reference.simplify_coords Reference.str_float st2.
Proof.
  apply (last_group_needs_separator Reference.simplify_coords
           Reference.str_float (initial empty_world) (take 5 grouping_lines)
           (script Reference.simplify_coords Reference.str_float empty_world
              (take 5 grouping_lines)).1
           "-98.000000,30.000000" "-98.000000" "30.000000"
           (Dec true 98000000 (-6)) (Dec false 30000000 (-6)));
    reflexivity.
Defined.

(** * Further properties *)

(** X1: a line on which no place goes on with "<name>" or with a minus
    sign and a digit is a separator, whatever else it holds: the closing
    tags of a KML file, and also a pair of numbers whose longitude has no
    minus sign.  It leaves [name] alone and hands over the pending points
    if there are any. *)
Theorem quiet_line_is_separator simplify_coords str_float st l :
  quiet l = true →
  classify l = Separator
  ∧ name (step simplify_coords str_float st l).1 = name st
  ∧ step simplify_coords str_float st l
    = match points st with
      | [] => (st, Continue)
      | _ :: _ => flush simplify_coords str_float st
      end.
Proof.
  intros Hq. pose proof (classify_quiet l Hq) as Hsep.
  split; [done|]. rewrite step_separator by done. split; [|done].
  destruct (points st); [done|]. apply flush_name.
Qed.

Lemma quiet_line_is_separator_witness :
  classify "97.123456,29.123456" = Separator
  ∧ name (step Reference.simplify_coords Reference.str_float pending
            "97.123456,29.123456").1 = name pending
  ∧ step Reference.simplify_coords Reference.str_float pending
      "97.123456,29.123456"
    = flush Reference.simplify_coords Reference.str_float pending.
Proof.
  apply (quiet_line_is_separator Reference.simplify_coords
           Reference.str_float pending "97.123456,29.123456").
  reflexivity.
Defined.

Lemma name_tag_broken t c rest g k :
  all_chars is_word_or_space t = true →
  is_word_or_space c = false → c ≠ "<"%char →
  matches name_tag ("<name>" +:+ t +:+ String c rest) g k = None.
Proof.
  intros Ht Hc Hlt. rewrite name_tag_unfold, matches_Str.
  rewrite star_commit; [|done|by intros; apply word_not_lt].
  rewrite star_stop by (simpl; by rewrite Hc).
  simpl. destruct (Ascii.eqb_spec "<" c) as [<-|]; done.
Qed.

(** X2: a name tag whose text holds a character outside [[\w\s]] (a
    hyphen, a full stop, an apostrophe) is not a name record.  When nothing
    else on the line matches, the line is a separator: [name] keeps the
    value it had, and the pending points are handed over under it. *)
Theorem name_with_other_character_is_separator simplify_coords str_float st
    pre t c rest :
  all_chars inert pre = true →
  all_chars is_word_or_space t = true →
  is_word_or_space c = false → c ≠ "<"%char →
  quiet (t +:+ String c rest) = true →
  let l := pre +:+ "<name>" +:+ t +:+ String c rest in
  classify l = Separator
  ∧ name (step simplify_coords str_float st l).1 = name st
  ∧ step simplify_coords str_float st l
    = match points st with
      | [] => (st, Continue)
      | _ :: _ => flush simplify_coords str_float st
      end.
Proof.
  intros Hpre Ht Hc Hlt Hq l.
  assert (classify l = Separator) as Hsep.
  { unfold classify, l. rewrite search_inert by done.
    change ("<name>" +:+ t +:+ String c rest)
      with (String "<" ("name>" +:+ t +:+ String c rest)).
    rewrite re_search_cons.
    change (String "<" ("name>" +:+ t +:+ String c rest))
      with ("<name>" +:+ t +:+ String c rest).
    rewrite pattern_unfold, name_tag_broken by done.
    change ("<name>" +:+ t +:+ String c rest)
      with (String "<" ("name>" +:+ t +:+ String c rest)).
    rewrite coordinates_first by done.
    rewrite search_quiet; [done|].
    change ("name>" +:+ t +:+ String c rest)
      with (String "n" (String "a" (String "m" (String "e"
              (String ">" (t +:+ String c rest)))))).
    by rewrite !quiet_inert_cons. }
  split; [done|]. rewrite step_separator by done. split; [|done].
  destruct (points st); [done|]. apply flush_name.
Qed.

Lemma name_with_other_character_is_separator_witness :
  classify "  <name>Miami-Dade</name>" = Separator
  ∧ name (step Reference.simplify_coords Reference.str_float pending
            "  <name>Miami-Dade</name>").1 = name pending
  ∧ step Reference.simplify_coords Reference.str_float pending
      "  <name>Miami-Dade</name>"
    = flush Reference.simplify_coords Reference.str_float pending.
Proof.
  apply (name_with_other_character_is_separator Reference.simplify_coords
           Reference.str_float pending "  " "Miami" "-" "Dade</name>");
    [reflexivity|reflexivity|reflexivity|discriminate|reflexivity].
Defined.

(** X3: a pair of numbers whose longitude has three digits before the
    decimal point, as west of the hundredth meridian, is not a coordinate
    record: the line is a separator, so its point is dropped and the
    pending points, if any, are handed over. *)
Theorem three_digit_longitude_is_separator simplify_coords str_float st
    d f e h tail :
  digit_run 3 d = true → all_chars is_digit f = true →
  all_chars is_digit e = true → all_chars is_digit h = true →
  all_chars inert tail = true →
  let l := "-" +:+ d +:+ "." +:+ f +:+ "," +:+ e +:+ "." +:+ h +:+ tail in
  classify l = Separator
  ∧ point_of_line l = []
  ∧ step simplify_coords str_float st l
    = match points st with
      | [] => (st, Continue)
      | _ :: _ => flush simplify_coords str_float st
      end.
Proof.
  intros Hd Hf He Hh Htail l.
  assert (classify l = Separator) as Hsep.
  { unfold classify, l.
    pose proof Hd as [Hlen Hdig]%digit_run_spec.
    rewrite (append_cons "-" ""), append_nil_l, re_search_cons.
    rewrite pattern_unfold, name_tag_first by done.
    assert (matches coordinates
              (String "-" (d +:+ "." +:+ f +:+ "," +:+ e +:+ "." +:+ h +:+ tail))
              [] (λ _ g, Some g) = None) as ->.
    { destruct (split_at 2 d) as (d12 & d3 & -> & H12); [lia|].
      rewrite all_chars_app in Hdig. apply andb_true_iff in Hdig as [H1 H3].
      rewrite length_append, H12 in Hlen.
      destruct d3 as [|c [|]]; simpl in Hlen; try lia.
      rewrite append_assoc, append_cons, append_nil_l.
      rewrite (append_cons "." ""), append_nil_l.
      rewrite coordinates_unfold, degrees_unfold, matches_rep_class by done.
      rewrite dot_unfold. destruct (Ascii.eqb c newline); [done|].
      apply (matches_rep_class_short 6 is_digit "");
        [simpl; lia|reflexivity|reflexivity]. }
    rewrite search_all_inert; [done|].
    rewrite !all_chars_app.
    by rewrite (digits_inert d), (digits_inert f), (digits_inert e),
      (digits_inert h), Htail. }
  split; [done|]. split; [unfold point_of_line; by rewrite Hsep|].
  by apply step_separator.
Qed.

Lemma three_digit_longitude_is_separator_witness :
  classify "-100.123456,29.123456" = Separator
  ∧ point_of_line "-100.123456,29.123456" = []
  ∧ step Reference.simplify_coords Reference.str_float pending
      "-100.123456,29.123456"
    = flush Reference.simplify_coords Reference.str_float pending.
Proof.
  apply (three_digit_longitude_is_separator Reference.simplify_coords
           Reference.str_float pending "100" "123456" "29" "123456" "");
    reflexivity.
Defined.

(** X4: every coordinate record holds, where the pattern matches, a minus
    sign, two digits, one character that is not a newline, six digits, any
    digits, a comma, two digits, one character that is not a newline and
    six digits; its two texts are these characters without the digits
    beyond the sixth. *)
Theorem coordinate_record_has_shape l lon lat :
  classify l = CoordinateRecord lon lat →
  ∃ pre d c f extra e c' h rest,
    l = pre +:+ "-" +:+ d +:+ String c (f +:+ extra +:+ "," +:+ e
                                      +:+ String c' (h +:+ rest))
    ∧ digit_run 2 d = true ∧ c ≠ newline ∧ digit_run 6 f = true
    ∧ all_chars is_digit extra = true
    ∧ digit_run 2 e = true ∧ c' ≠ newline ∧ digit_run 6 h = true
    ∧ lon = "-" +:+ d +:+ String c f ∧ lat = e +:+ String c' h
    ∧ String.length lon = 10 ∧ String.length lat = 9.
Proof.
  intros (pre & d & c & f & extra & e & c' & h & rest & -> & Hd & Hc & Hf
          & Hx & He & Hc' & Hh & -> & ->)%coordinate_record_shape.
  exists pre, d, c, f, extra, e, c', h, rest.
  repeat (split; [done|]).
  apply digit_run_spec in Hd as [Hd _], Hf as [Hf _], He as [He _],
    Hh as [Hh _].
  rewrite !length_append. simpl. rewrite Hd, Hf, He, Hh. done.
Qed.

Lemma coordinate_record_has_shape_witness :
  ∃ pre d c f extra e c' h rest,
    "  -97.76783648,29.43458974 " = pre +:+ "-" +:+ d
       +:+ String c (f +:+ extra +:+ "," +:+ e +:+ String c' (h +:+ rest))
    ∧ digit_run 2 d = true ∧ c ≠ newline ∧ digit_run 6 f = true
    ∧ all_chars is_digit extra = true
    ∧ digit_run 2 e = true ∧ c' ≠ newline ∧ digit_run 6 h = true
    ∧ "-97.767836" = "-" +:+ d +:+ String c f
    ∧ "29.434589" = e +:+ String c' h
    ∧ String.length "-97.767836" = 10 ∧ String.length "29.434589" = 9.
Proof.
  apply (coordinate_record_has_shape "  -97.76783648,29.43458974 "
           "-97.767836" "29.434589").
  reflexivity.
Defined.

Lemma replace_name_chars t :
  all_chars is_word_or_space t = true →
  all_chars name_char (replace " " "_" t) = true.
Proof.
  induction t as [|c t IH]; [done|]. simpl.
  intros [Hc Ht]%andb_true_iff. rewrite (IH Ht), andb_true_r.
  unfold name_char. destruct (Ascii.eqb_spec c " ") as [->|Hsp]; [done|].
  rewrite Hc. simpl. by apply negb_true_iff, Ascii.eqb_neq.
Qed.

(** X5: every name record holds a name tag whose text is not empty and is
    made of characters of [[\w\s]] only; [name] becomes that text with its
    spaces replaced, so it holds no space and no character outside
    [[\w\s]]. *)
Theorem name_record_has_shape simplify_coords str_float st l t :
  classify l = NameRecord t →
  t ≠ "" ∧ all_chars is_word_or_space t = true
  ∧ (∃ pre rest, l = pre +:+ "<name>" +:+ t +:+ "</name>" +:+ rest)
  ∧ all_chars name_char (name (step simplify_coords str_float st l).1) = true.
Proof.
  intros H. destruct (name_record_shape l t H) as (Hne & Ht & Hshape).
  repeat (split; [done|]).
  rewrite step_classify, H. simpl. by apply replace_name_chars.
Qed.

Lemma name_record_has_shape_witness :
  "Bell County" ≠ "" ∧ all_chars is_word_or_space "Bell County" = true
  ∧ (∃ pre rest, "  <name>Bell County</name>"
                 = pre +:+ "<name>" +:+ "Bell County" +:+ "</name>" +:+ rest)
  ∧ all_chars name_char
      (name (step Reference.simplify_coords Reference.str_float pending
               "  <name>Bell County</name>").1) = true.
Proof.
  apply (name_record_has_shape Reference.simplify_coords Reference.str_float
           pending "  <name>Bell County</name>" "Bell County").
  reflexivity.
Defined.

(** X6: a line that holds, before any other [<] or [-], a name tag with a
    text of one or more characters of [[\w\s]] is a name record, whatever
    follows the tag; it sets [name] and changes nothing else. *)
Theorem name_tag_is_name_record simplify_coords str_float st pre t rest :
  all_chars inert pre = true → all_chars is_word_or_space t = true →
  t ≠ "" →
  let l := pre +:+ "<name>" +:+ t +:+ "</name>" +:+ rest in
  classify l = NameRecord t
  ∧ step simplify_coords str_float st l
    = ({| name := replace " " "_" t; points := points st;
          env := env st; calls := calls st |}, Continue).
Proof.
  intros Hpre Ht Hne l.
  pose proof (classify_name pre t rest Hpre Ht Hne) as H.
  split; [done|]. unfold l. by rewrite step_classify, H.
Qed.

Lemma name_tag_is_name_record_witness :
  classify ("    <name>Bell County</name> <open>1</open>" +:+ nl)
  = NameRecord "Bell County"
  ∧ step Reference.simplify_coords Reference.str_float pending
      ("    <name>Bell County</name> <open>1</open>" +:+ nl)
    = ({| name := "Bell_County"; points := points pending;
          env := env pending; calls := calls pending |}, Continue).
Proof.
  apply (name_tag_is_name_record Reference.simplify_coords
           Reference.str_float pending "    " "Bell County"
           (" <open>1</open>" +:+ nl));
    [reflexivity|reflexivity|discriminate].
Defined.

(** ** Numbers that are not numbers *)

Lemma sign_of_text neg c s :
  is_digit c = true →
  sign ((if neg : bool then "-" else "") +:+ String c s) = (neg, String c s).
Proof.
  intros H. destruct neg; [done|]. rewrite append_nil_l. by apply sign_digit.
Qed.

Lemma py_float_broken neg d c f :
  digit_run 2 d = true → float_joint c = false →
  py_float ((if neg : bool then "-" else "") +:+ d +:+ String c f)
  = Raise ValueError.
Proof.
  intros [Hd1 Hd2]%digit_run_spec Hc.
  destruct d as [|d1 d]; [done|]. simpl in Hd2.
  apply andb_true_iff in Hd2 as [Hd1' Hd2].
  unfold float_joint in Hc.
  apply orb_false_iff in Hc as [Hc HE]. apply orb_false_iff in Hc as [Hc He].
  apply orb_false_iff in Hc as [Hc Hu]. apply orb_false_iff in Hc as [Hc Hp].
  unfold py_float. rewrite append_cons, sign_of_text by done.
  rewrite <- append_cons, digits_run by done.
  assert (∀ a n, digitpart a n (String c f) = (a, n, String c f)) as ->.
  { intros a n. simpl. by rewrite Hc, Hu. }
  cbv beta iota zeta.
  assert (exponent (String c f) = None) as Hexp.
  { simpl. by rewrite He, HE. }
  destruct c as [[][][][][][][][]]; try done; simpl; by rewrite Hexp.
Qed.

Lemma run_cons simplify_coords str_float st l lines :
  run simplify_coords str_float st (l :: lines)
  = match step simplify_coords str_float st l with
    | (st', Continue) => run simplify_coords str_float st' lines
    | (st', Raised e) => (st', Raised e)
    end.
Proof. reflexivity. Qed.

(** X7: the dot of the pattern stands for any character, but [float] does
    not: a line that holds, in place of the decimal point of the longitude,
    a character that is neither a digit nor one of [.], [_], [e], [E] is a
    coordinate record on which [float] raises [ValueError].  The script
    stops there: the state is the one before the line, and the lines after
    it are not read. *)
Theorem other_character_for_point_stops_script simplify_coords str_float st
    pre d c f extra e c' h rest lines :
  all_chars inert pre = true →
  digit_run 2 d = true → c ≠ newline → float_joint c = false →
  digit_run 6 f = true → all_chars is_digit extra = true →
  digit_run 2 e = true → c' ≠ newline → digit_run 6 h = true →
  let l := pre +:+ "-" +:+ d +:+ String c (f +:+ extra +:+ "," +:+ e
                                        +:+ String c' (h +:+ rest)) in
  classify l = CoordinateRecord ("-" +:+ d +:+ String c f) (e +:+ String c' h)
  ∧ run simplify_coords str_float st (l :: lines) = (st, Raised ValueError).
Proof.
  intros Hpre Hd Hc Hj Hf Hx He Hc' Hh l. subst l.
  pose proof (classify_coordinates pre d c f extra e c' h rest
                Hpre Hd Hc Hf Hx He Hc' Hh) as Hl.
  split; [done|]. rewrite run_cons, step_classify, Hl.
  unfold append_point. by rewrite (py_float_broken true d c f Hd Hj).
Qed.

Lemma other_character_for_point_stops_script_witness :
  classify "-97 123456,29.123456" = CoordinateRecord "-97 123456" "29.123456"
  ∧ run Reference.simplify_coords Reference.str_float pending
      ["-97 123456,29.123456"; "</coordinates>"]
    = (pending, Raised ValueError).
Proof.
  apply (other_character_for_point_stops_script Reference.simplify_coords
           Reference.str_float pending "" "97" " " "123456" "" "29" "."
           "123456" "" ["</coordinates>"]);
    try reflexivity; discriminate.
Defined.

Lemma py_float_digits neg c s :
  is_digit c = true → all_chars is_digit s = true →
  py_float ((if neg : bool then "-" else "") +:+ String c s)
  = Ok (Dec neg (number 0 (String c s)) 0).
Proof.
  intros Hc Hs.
  assert (digits 0 (String c s)
          = Some (number 0 (String c s), S (String.length s), "")) as Hd.
  { rewrite <- (append_nil_r (String c s)) at 1.
    by rewrite digits_run. }
  unfold py_float. by rewrite sign_of_text, Hd.
Qed.

(** X8: a digit in place of the decimal point is accepted without a word:
    the nine digits of the longitude are read as a whole number of
    degrees, and the point is appended. *)
Theorem digit_for_point_is_read_as_integer simplify_coords str_float st
    pre d c f extra e h rest :
  all_chars inert pre = true →
  digit_run 2 d = true → is_digit c = true → digit_run 6 f = true →
  all_chars is_digit extra = true →
  digit_run 2 e = true → digit_run 6 h = true →
  let l := pre +:+ "-" +:+ d +:+ String c (f +:+ extra +:+ "," +:+ e
                                        +:+ "." +:+ h +:+ rest) in
  step simplify_coords str_float st l
  = ({| name := name st;
        points := points st
                  ++ [[Dec true (number 0 (d +:+ String c f)) 0;
                       Dec false (number 0 (e +:+ h)) (-6)]];
        env := env st; calls := calls st |}, Continue).
Proof.
  intros Hpre Hd Hc Hf Hx He Hh l.
  assert (c ≠ newline) as Hnl by (by intros ->).
  assert (classify l
          = CoordinateRecord ("-" +:+ d +:+ String c f) (e +:+ "." +:+ h))
    as Hl by (by apply (classify_coordinates pre d c f extra e "." h rest)).
  rewrite step_classify, Hl. unfold append_point.
  pose proof Hd as [Hd1 Hd2]%digit_run_spec.
  pose proof Hf as [_ Hf2]%digit_run_spec.
  destruct d as [|d1 d]; [done|]. simpl in Hd2.
  apply andb_true_iff in Hd2 as [Hd1' Hd2].
  rewrite (append_cons d1), (py_float_digits true d1 (d +:+ String c f));
    [|done|].
  - change (e +:+ "." +:+ h) with ("" +:+ e +:+ "." +:+ h).
    by rewrite (py_float_degrees false e h He Hh).
  - rewrite all_chars_app. simpl. by rewrite Hd2, Hc, Hf2.
Qed.

Lemma digit_for_point_is_read_as_integer_witness :
  step Reference.simplify_coords Reference.str_float pending
    "-971234567,29.123456"
  = ({| name := "A";
        points := points pending
                  ++ [[Dec true 971234567 0; Dec false 29123456 (-6)]];
        env := env pending; calls := calls pending |}, Continue).
Proof.
  apply (digit_for_point_is_read_as_integer Reference.simplify_coords
           Reference.str_float pending "" "97" "1" "234567" "" "29"
           "123456" "");
    reflexivity.
Defined.

Lemma flush_writable simplify_coords str_float st :
  writable (env (flush simplify_coords str_float st).1) = writable (env st).
Proof.
  unfold flush. destruct (Simplified _ _ _); [|done].
  unfold KmlOut. by destruct (writable (env st) _).
Qed.

Lemma step_writable simplify_coords str_float st l :
  writable (env (step simplify_coords str_float st l).1) = writable (env st).
Proof.
  rewrite step_classify. destruct (classify l) as [t|lon lat|]; [done| |].
  - unfold append_point.
    destruct (py_float lon); [|done]. by destruct (py_float lat).
  - destruct (points st); [done|]. apply flush_writable.
Qed.

Lemma step_name simplify_coords str_float st l :
  name (step simplify_coords str_float st l).1
  = match classify l with
    | NameRecord t => replace " " "_" t
    | _ => name st
    end.
Proof.
  rewrite step_classify. destruct (classify l) as [t|lon lat|]; [done| |].
  - unfold append_point.
    destruct (py_float lon); [|done]. by destruct (py_float lat).
  - destruct (points st); [done|]. apply flush_name.
Qed.

Lemma step_completes simplify_coords str_float st l :
  keeps_a_point simplify_coords →
  writable (env st) (path_of (name st)) = true →
  (step simplify_coords str_float st l).2
  = if numbers_parse l then Continue else Raised ValueError.
Proof.
  intros Hlib Hw. rewrite step_classify. unfold numbers_parse.
  destruct (classify l) as [t|lon lat|]; [done| |].
  - unfold append_point.
    destruct (py_float lon) as [x|e1] eqn:E1.
    + destruct (py_float lat) as [y|e2] eqn:E2; [done|].
      by apply py_float_raises in E2 as ->.
    + by apply py_float_raises in E1 as ->.
  - destruct (points st) as [|p ps] eqn:E; [done|].
    apply flush_outcome; [done|by rewrite E|done].
Qed.

(** X9: with a library that keeps a point of every line, and when the
    file of every name that the input gives to a group can be opened, the
    script runs to the end of the input exactly when the two texts of every
    coordinate record are numbers; otherwise it stops with [ValueError],
    and with nothing else. *)
Theorem script_completes_iff_numbers_parse simplify_coords str_float st lines :
  keeps_a_point simplify_coords →
  names_open (env st) (name st) lines →
  ((run simplify_coords str_float st lines).2 = Continue
   ↔ forallb numbers_parse lines = true)
  ∧ ((run simplify_coords str_float st lines).2 = Continue
     ∨ (run simplify_coords str_float st lines).2 = Raised ValueError).
Proof.
  intros Hlib. revert st.
  induction lines as [|l lines IH]; intros st [Hw Hall];
    [by split; [|left]|].
  apply Forall_cons_1 in Hall as [Hl Hall].
  rewrite run_cons.
  change (forallb numbers_parse (l :: lines))
    with (numbers_parse l && forallb numbers_parse lines).
  pose proof (step_completes simplify_coords str_float st l Hlib Hw) as Hs.
  pose proof (step_writable simplify_coords str_float st l) as Hwr.
  pose proof (step_name simplify_coords str_float st l) as Hn.
  destruct (step simplify_coords str_float st l) as [st' o].
  simpl in Hs, Hwr, Hn.
  destruct (numbers_parse l); subst o; simpl.
  - apply IH. split; rewrite Hwr; [|done]. rewrite Hn.
    destruct (classify l) as [t| |]; [by apply Hl|done..].
  - split; [split; discriminate|by right].
Qed.

Lemma script_completes_iff_numbers_parse_witness :
  ((run Reference.simplify_coords Reference.str_float
      (initial empty_world) grouping_lines).2 = Continue
   ↔ forallb numbers_parse grouping_lines = true)
  ∧ ((run Reference.simplify_coords Reference.str_float
        (initial empty_world) grouping_lines).2 = Continue
     ∨ (run Reference.simplify_coords Reference.str_float
          (initial empty_world) grouping_lines).2 = Raised ValueError).
Proof.
  apply (script_completes_iff_numbers_parse Reference.simplify_coords
           Reference.str_float (initial empty_world) grouping_lines).
  - exact reference_keeps_a_point.
  - split; [reflexivity|].
    repeat constructor; intros t H; vm_compute in H; try discriminate;
      injection H as <-; reflexivity.
Defined.

(** ** What the loop keeps *)

Lemma step_points simplify_coords str_float st l st' :
  step simplify_coords str_float st l = (st', Continue) →
  concat (calls st') ++ points st'
  = concat (calls st) ++ points st ++ point_of_line l.
Proof.
  rewrite step_classify. unfold point_of_line.
  destruct (classify l) as [t|lon lat|].
  - intros [= <-]. simpl. by rewrite app_nil_r.
  - unfold append_point.
    destruct (py_float lon) as [x|]; [|done].
    destruct (py_float lat) as [y|]; [|done].
    by intros [= <-].
  - destruct (points st) as [|p ps] eqn:E.
    + intros [= <-]. by rewrite E.
    + unfold flush. rewrite E.
      destruct (Simplified _ _ _); [|done].
      destruct (KmlOut _ _ _); [|done].
      intros [= <-]. simpl. rewrite concat_app. simpl.
      by rewrite !app_nil_r.
Qed.

(** X10: on an input that the script reads to its end, no point is lost,
    repeated or moved: the points handed to [Simplified], call after call,
    followed by the points still pending, are the points of the coordinate
    records in the order of the lines. *)
Theorem points_partitioned simplify_coords str_float st lines st' :
  run simplify_coords str_float st lines = (st', Continue) →
  concat (calls st') ++ points st'
  = concat (calls st) ++ points st ++ concat (point_of_line <$> lines).
Proof.
  revert st. induction lines as [|l lines IH]; intros st.
  - intros [= <-]. simpl. by rewrite app_nil_r.
  - rewrite run_cons.
    destruct (step simplify_coords str_float st l) as [st1 [|e]] eqn:E; [|done].
    intros H. rewrite (IH st1 H), app_assoc, (step_points _ _ _ _ _ E).
    rewrite fmap_cons. simpl. by rewrite <- !app_assoc.
Qed.

Lemma points_partitioned_witness :
  concat (calls (script Reference.simplify_coords Reference.str_float
                   empty_world grouping_lines).1)
  ++ points (script Reference.simplify_coords Reference.str_float
               empty_world grouping_lines).1
  = concat (calls (initial empty_world)) ++ points (initial empty_world)
    ++ concat (point_of_line <$> grouping_lines).
Proof.
  apply (points_partitioned Reference.simplify_coords Reference.str_float
           (initial empty_world) grouping_lines).
  reflexivity.
Defined.

Lemma Simplified_raises simplify_coords str_float pts e :
  Simplified simplify_coords str_float pts = Raise e → e = IndexError.
Proof.
  unfold Simplified.
  destruct (transform str_float <$> simplify_coords pts lineWidth);
    congruence.
Qed.

Lemma step_progress simplify_coords str_float st l :
  length (stdout (env (step simplify_coords str_float st l).1))
  + length (calls st)
  + unannounced (step simplify_coords str_float st l).2
  = length (stdout (env st))
    + length (calls (step simplify_coords str_float st l).1).
Proof.
  rewrite step_classify.
  destruct (classify l) as [t|lon lat|]; [simpl; lia| |].
  - unfold append_point.
    destruct (py_float lon) as [x|e1] eqn:E1.
    + destruct (py_float lat) as [y|e2] eqn:E2; [simpl; lia|].
      apply py_float_raises in E2 as ->. simpl. lia.
    + apply py_float_raises in E1 as ->. simpl. lia.
  - destruct (points st) as [|p ps] eqn:E; [simpl; lia|].
    unfold flush. rewrite E.
    destruct (Simplified _ _ _) as [out|e] eqn:Es.
    + unfold KmlOut. destruct (writable (env st) _); simpl;
        rewrite !length_app; simpl; lia.
    + apply Simplified_raises in Es as ->. simpl.
      rewrite !length_app. simpl. lia.
Qed.

(** X11: the script prints one progress line for each call of
    [Simplified], except for a last call after which it stopped: when
    [Simplified] raised [IndexError], or when the file could not be opened,
    the call is left without its line. *)
Theorem one_progress_line_per_call simplify_coords str_float st lines :
  length (stdout (env (run simplify_coords str_float st lines).1))
  + length (calls st)
  + unannounced (run simplify_coords str_float st lines).2
  = length (stdout (env st))
    + length (calls (run simplify_coords str_float st lines).1).
Proof.
  revert st. induction lines as [|l lines IH]; intros st; [simpl; lia|].
  rewrite run_cons.
  pose proof (step_progress simplify_coords str_float st l) as Hs.
  destruct (step simplify_coords str_float st l) as [st1 [|e]]; simpl in Hs.
  - specialize (IH st1). lia.
  - simpl. lia.
Qed.

(** X12: lines that are neither name nor coordinate records, read while
    no point is pending, change nothing: the lines of a file before its
    first name or point, and the lines between two groups, write no file
    and print nothing. *)
Theorem idle_separators_are_skipped simplify_coords str_float st seps lines :
  points st = [] →
  Forall (λ l, classify l = Separator) seps →
  run simplify_coords str_float st (seps ++ lines)
  = run simplify_coords str_float st lines.
Proof.
  intros Hidle Hseps.
  induction Hseps as [|l seps Hl _ IH]; [done|].
  change ((l :: seps) ++ lines) with (l :: seps ++ lines).
  by rewrite run_cons, step_separator, Hidle.
Qed.

Lemma idle_separators_are_skipped_witness :
  run Reference.simplify_coords Reference.str_float idle
    (["<Placemark>"; "<coordinates>"] ++ grouping_lines)
  = run Reference.simplify_coords Reference.str_float idle grouping_lines.
Proof.
  apply (idle_separators_are_skipped Reference.simplify_coords
           Reference.str_float idle ["<Placemark>"; "<coordinates>"]
           grouping_lines).
  - reflexivity.
  - repeat constructor.
Defined.

(** X13: a name record does not close a group.  Points gathered before a
    name tag are handed over at the next separator, under the name of that
    tag and not under the name they were gathered with: the file that is
    opened and the line that is printed carry the new name.  When that
    file cannot be opened the script stops with [OSError] and the points
    stay pending. *)
Theorem name_before_separator_renames_group simplify_coords str_float st
    l t sep :
  keeps_a_point simplify_coords → points st ≠ [] →
  classify l = NameRecord t → classify sep = Separator →
  ∃ out,
    Simplified simplify_coords str_float (points st) = Ok out
    ∧ run simplify_coords str_float st [l; sep]
      = if writable (env st) (path_of (replace " " "_" t)) then
          ({| name := replace " " "_" t; points := [];
              env := {| files := <[ path_of (replace " " "_" t) :=
                                    document (replace " " "_" t) out ]>
                                 (files (env st));
                        stdout := stdout (env st)
                                  ++ [progress_line (replace " " "_" t) out];
                        writable := writable (env st) |};
              calls := calls st ++ [points st] |}, Continue)
        else
          ({| name := replace " " "_" t; points := points st;
              env := env st; calls := calls st ++ [points st] |},
           Raised OSError).
Proof.
  intros Hlib Hne Hl Hsep.
  destruct (Simplified_ok simplify_coords str_float (points st) Hlib Hne)
    as (x & xs & _ & Hout).
  eexists. split; [exact Hout|].
  rewrite run_cons, step_classify, Hl. cbv beta iota.
  rewrite run_cons, step_separator by done.
  simpl. destruct (points st) as [|p ps] eqn:E; [done|].
  unfold flush. simpl. rewrite E, Hout.
  unfold KmlOut, path_of, document, progress_line. simpl.
  by destruct (writable (env st) _).
Qed.

Lemma name_before_separator_renames_group_witness :
  ∃ out,
    Simplified Reference.simplify_coords Reference.str_float (points pending)
    = Ok out
    ∧ run Reference.simplify_coords Reference.str_float pending
        ["<name>B</name>"; "</coordinates>"]
      = if writable (env pending) (path_of "B") then
          ({| name := "B"; points := [];
              env := {| files := <[ path_of "B" := document "B" out ]>
                                 (files (env pending));
                        stdout := stdout (env pending)
                                  ++ [progress_line "B" out];
                        writable := writable (env pending) |};
              calls := calls pending ++ [points pending] |}, Continue)
        else
          ({| name := "B"; points := points pending;
              env := env pending; calls := calls pending ++ [points pending] |},
           Raised OSError).
Proof.
  apply (name_before_separator_renames_group Reference.simplify_coords
           Reference.str_float pending "<name>B</name>" "B" "</coordinates>").
  - exact reference_keeps_a_point.
  - discriminate.
  - reflexivity.
  - reflexivity.
Defined.

Lemma step_name_chars simplify_coords str_float st l :
  all_chars name_char (name st) = true →
  all_chars name_char (name (step simplify_coords str_float st l).1) = true.
Proof.
  intros Hn. rewrite step_classify.
  destruct (classify l) as [t|lon lat|] eqn:E.
  - destruct (name_record_shape l t E) as (_ & Ht & _).
    simpl. by apply replace_name_chars.
  - unfold append_point.
    destruct (py_float lon); [|done]. by destruct (py_float lat).
  - destruct (points st); [done|]. by rewrite flush_name.
Qed.

Lemma step_files simplify_coords str_float st l path :
  files (env (step simplify_coords str_float st l).1) !! path
    ≠ files (env st) !! path →
  path = path_of (name st).
Proof.
  rewrite step_classify. destruct (classify l) as [t|lon lat|].
  - done.
  - unfold append_point.
    destruct (py_float lon); [|done]. by destruct (py_float lat).
  - destruct (points st); [done|]. unfold flush.
    destruct (Simplified _ _ _); [|done]. unfold KmlOut.
    destruct (writable (env st) _); [|done]. simpl.
    destruct (decide (path = path_of (name st))) as [|Hne]; [done|].
    unfold path_of in Hne. by rewrite lookup_insert_ne.
Qed.

(** X14: every file that the script creates or changes has a path of the
    form [n_points.kml], where [n] has no space and no character outside
    [[\w\s]]: no path separator, no dot, no quote.  All other files are
    left as they were. *)
Theorem files_are_named simplify_coords str_float st lines path :
  all_chars name_char (name st) = true →
  files (env (run simplify_coords str_float st lines).1) !! path
    ≠ files (env st) !! path →
  ∃ n, path = n +:+ "_points.kml" ∧ all_chars name_char n = true.
Proof.
  revert st. induction lines as [|l lines IH]; intros st Hn Hdiff; [done|].
  rewrite run_cons in Hdiff.
  pose proof (step_name_chars simplify_coords str_float st l Hn) as Hn1.
  pose proof (step_files simplify_coords str_float st l path) as Hs.
  destruct (step simplify_coords str_float st l) as [st1 [|e]];
    simpl in Hn1, Hs.
  - destruct (decide (files (env st1) !! path = files (env st) !! path))
      as [Heq|Hne].
    + apply (IH st1 Hn1). by rewrite Heq.
    + exists (name st). by rewrite (Hs Hne).
  - exists (name st). by rewrite (Hs Hdiff).
Qed.

Lemma files_are_named_witness :
  ∃ n, "A_points.kml" = n +:+ "_points.kml" ∧ all_chars name_char n = true.
Proof.
  apply (files_are_named Reference.simplify_coords Reference.str_float
           (initial empty_world) (grouping_lines ++ ["</kml>"])
           "A_points.kml").
  - reflexivity.
  - vm_compute. discriminate.
Defined.

Lemma step_point simplify_coords str_float st l :
  point_of_line l ≠ [] →
  step simplify_coords str_float st l
  = ({| name := name st; points := points st ++ point_of_line l;
        env := env st; calls := calls st |}, Continue).
Proof.
  unfold point_of_line. rewrite step_classify.
  destruct (classify l) as [t|lon lat|]; [done| |done].
  unfold append_point.
  destruct (py_float lon) as [x|]; [|done].
  by destruct (py_float lat) as [y|].
Qed.

Lemma run_points simplify_coords str_float st ls :
  Forall (λ l, point_of_line l ≠ []) ls →
  run simplify_coords str_float st ls
  = ({| name := name st;
        points := points st ++ concat (point_of_line <$> ls);
        env := env st; calls := calls st |}, Continue).
Proof.
  intros H. revert st. induction H as [|l ls Hl _ IH]; intros st.
  - simpl. rewrite app_nil_r. by destruct st.
  - rewrite run_cons, step_point by done. cbv beta iota.
    rewrite IH, fmap_cons. simpl. by rewrite <- app_assoc.
Qed.

(** X15: [name] outlives a group.  When a second run of points follows a
    separator without a name record of its own, it is written under the
    same name: where the file of that name can be opened, both groups are
    handed to [Simplified] and both are announced, but one file is left,
    and it holds the second group. *)
Theorem group_without_name_overwrites simplify_coords str_float st
    sep1 ls sep2 :
  keeps_a_point simplify_coords → points st ≠ [] →
  writable (env st) (path_of (name st)) = true →
  classify sep1 = Separator →
  ls ≠ [] → Forall (λ l, point_of_line l ≠ []) ls →
  classify sep2 = Separator →
  ∃ out1 out2,
    Simplified simplify_coords str_float (points st) = Ok out1
    ∧ Simplified simplify_coords str_float (concat (point_of_line <$> ls))
      = Ok out2
    ∧ run simplify_coords str_float st (sep1 :: ls ++ [sep2])
      = ({| name := name st; points := [];
            env := {| files := <[ path_of (name st) :=
                                  document (name st) out2 ]> (files (env st));
                      stdout := stdout (env st)
                                ++ [progress_line (name st) out1;
                                    progress_line (name st) out2];
                      writable := writable (env st) |};
            calls := calls st
                     ++ [points st; concat (point_of_line <$> ls)] |},
         Continue).
Proof.
  intros Hlib Hne Hw Hsep1 Hls Hpts Hsep2.
  assert (concat (point_of_line <$> ls) ≠ []) as Hne2.
  { destruct Hpts as [|l ls Hl _]; [done|]. rewrite fmap_cons. simpl.
    by destruct (point_of_line l). }
  destruct (Simplified_ok simplify_coords str_float (points st) Hlib Hne)
    as (x1 & xs1 & _ & Hout1).
  destruct (Simplified_ok simplify_coords str_float _ Hlib Hne2)
    as (x2 & xs2 & _ & Hout2).
  eexists _, _. split; [exact Hout1|]. split; [exact Hout2|].
  rewrite run_cons, step_separator by done.
  destruct (points st) as [|p ps] eqn:E; [done|].
  unfold path_of in Hw.
  unfold flush at 1. rewrite E, Hout1. unfold KmlOut at 1. rewrite Hw.
  cbv beta iota.
  rewrite run_app, run_points by done. cbv beta iota.
  rewrite run_cons, step_separator by done.
  revert Hne2 Hout2.
  generalize (concat (point_of_line <$> ls)). intros pts2 Hne2 Hout2.
  cbn [points name env calls app].
  destruct pts2 as [|q qs]; [done|].
  unfold flush. cbn [points name env calls]. rewrite Hout2.
  unfold KmlOut, path_of, document, progress_line.
  cbn [files stdout writable]. rewrite Hw. cbn [run].
  by rewrite insert_insert_eq, <- !app_assoc.
Qed.

Lemma group_without_name_overwrites_witness :
  ∃ out1 out2,
    Simplified Reference.simplify_coords Reference.str_float (points pending)
    = Ok out1
    ∧ Simplified Reference.simplify_coords Reference.str_float
        (concat (point_of_line <$> ["-98.000000,30.000000"])) = Ok out2
    ∧ run Reference.simplify_coords Reference.str_float pending
        ("</coordinates>" :: ["-98.000000,30.000000"] ++ ["</coordinates>"])
      = ({| name := name pending; points := [];
            env := {| files := <[ path_of (name pending) :=
                                  document (name pending) out2 ]>
                               (files (env pending));
                      stdout := stdout (env pending)
                                ++ [progress_line (name pending) out1;
                                    progress_line (name pending) out2];
                      writable := writable (env pending) |};
            calls := calls pending
                     ++ [points pending;
                         concat (point_of_line <$> ["-98.000000,30.000000"])] |},
         Continue).
Proof.
  apply (group_without_name_overwrites Reference.simplify_coords
           Reference.str_float pending "</coordinates>"
           ["-98.000000,30.000000"] "</coordinates>").
  - exact reference_keeps_a_point.
  - discriminate.
  - reflexivity.
  - reflexivity.
  - discriminate.
  - repeat constructor. vm_compute. discriminate.
  - reflexivity.
Defined.

(** ** The simplifier's texts *)

(** X17: when the library returns points of two coordinates, every text
    that [Simplified] returns is the first coordinate, a comma, the second
    coordinate and [,0]: the elevation is always 0, and the order of the
    two coordinates is the order of the input, longitude first. *)
Theorem Simplified_point_format simplify_coords str_float inpoints out :
  Simplified simplify_coords str_float inpoints = Ok out →
  Forall (λ p, length p = 2) (simplify_coords inpoints lineWidth) →
  Forall (λ s, ∃ x y,
            [x; y] ∈ simplify_coords inpoints lineWidth
            ∧ s = str_float x +:+ "," +:+ str_float y +:+ ",0") out.
Proof.
  unfold Simplified.
  destruct (simplify_coords inpoints lineWidth) as [|p ps] eqn:E; [done|].
  intros H Hlen.
  assert (out = join "," <$> ((transform str_float <$> p :: ps)
                              ++ [transform str_float p])) as ->
    by (by injection H).
  clear H. apply Forall_forall. intros s Hs.
  apply list_elem_of_fmap in Hs as (q & -> & Hq).
  assert (∃ r, r ∈ p :: ps ∧ q = transform str_float r) as (r & Hr & ->).
  { apply elem_of_app in Hq as [Hq|Hq].
    - apply list_elem_of_fmap in Hq as (r & -> & Hr). by exists r.
    - apply list_elem_of_singleton in Hq as ->. exists p.
      split; [by left|done]. }
  rewrite Forall_forall in Hlen. specialize (Hlen r Hr).
  destruct r as [|x [|y [|]]]; try done. by exists x, y.
Qed.

Lemma Simplified_point_format_witness :
  Forall (λ s, ∃ x y,
            [x; y] ∈ Reference.simplify_coords square lineWidth
            ∧ s = Reference.str_float x +:+ "," +:+ Reference.str_float y
                  +:+ ",0")
    [ "-97.123456,29.123456,0"; "-97.223456,29.123456,0";
      "-97.223456,29.223456,0"; "-97.123456,29.223456,0";
      "-97.123456,29.123456,0" ].
Proof.
  apply (Simplified_point_format Reference.simplify_coords
           Reference.str_float square).
  - vm_compute. reflexivity.
  - vm_compute. repeat constructor.
Defined.

(** ** Points south of the equator *)

(** X18: a pair of numbers whose latitude has a minus sign, as south of
    the equator, is not a coordinate record: the pattern asks for a digit
    right after the comma.  The line is a separator, so its point is
    dropped and the pending points, if any, are handed over. *)
Theorem negative_latitude_is_separator simplify_coords str_float st
    d f extra e h extra' tail :
  digit_run 2 d = true → digit_run 6 f = true →
  all_chars is_digit extra = true →
  digit_run 2 e = true → digit_run 6 h = true →
  all_chars is_digit extra' = true →
  all_chars inert tail = true → stops is_digit tail = true →
  stops (Ascii.eqb ",") tail = true →
  let l := "-" +:+ d +:+ "." +:+ f +:+ extra +:+ ","
               +:+ "-" +:+ e +:+ "." +:+ h +:+ extra' +:+ tail in
  classify l = Separator
  ∧ point_of_line l = []
  ∧ step simplify_coords str_float st l
    = match points st with
      | [] => (st, Continue)
      | _ :: _ => flush simplify_coords str_float st
      end.
Proof.
  intros Hd Hf Hx He Hh Hx' Htail Hstop Hcomma l.
  assert (classify l = Separator) as Hsep.
  { unfold classify, l.
    set (lat := "-" +:+ e +:+ "." +:+ h +:+ extra' +:+ tail).
    (* no match at the first minus sign *)
    assert (matches coordinates
              ("-" +:+ d +:+ String "." (f +:+ extra +:+ "," +:+ lat))
              [] (λ _ g, Some g) = None) as H1.
    { rewrite coordinates_longitude by done.
      unfold lat. rewrite (append_cons "-" ""), append_nil_l.
      rewrite degrees_unfold.
      apply (matches_rep_class_short 2 is_digit "");
        [simpl; lia|reflexivity|reflexivity]. }
    rewrite (append_cons "-" ""), append_nil_l, re_search_cons.
    rewrite pattern_unfold, name_tag_first by done.
    change (matches coordinates (String "-" _) [] _)
      with (matches coordinates
              ("-" +:+ d +:+ String "." (f +:+ extra +:+ "," +:+ lat))
              [] (λ _ g, Some g)).
    rewrite H1.
    (* nor before the second *)
    rewrite <- !append_assoc.
    rewrite search_inert.
    2:{ rewrite !all_chars_app.
        by rewrite (digit_run_inert 2 d), (digit_run_inert 6 f),
          (digits_inert extra). }
    (* nor at the second, after which no comma comes *)
    assert (matches coordinates
              (String "-" (e +:+ String "." (h +:+ extra' +:+ tail)))
              [] (λ _ g, Some g) = None) as H2.
    { rewrite coordinates_unfold, matches_degrees by done.
      unfold after_longitude.
      rewrite star_commit; [|done|by intros; apply digit_not_comma].
      rewrite star_stop by done.
      destruct tail as [|c tail]; [done|]. simpl in Hcomma. simpl.
      by apply negb_true_iff in Hcomma as ->. }
    unfold lat. rewrite (append_cons "-" ""), append_nil_l, re_search_cons.
    rewrite pattern_unfold, name_tag_first by done.
    change (matches coordinates (String "-" _) [] _)
      with (matches coordinates
              (String "-" (e +:+ String "." (h +:+ extra' +:+ tail)))
              [] (λ _ g, Some g)).
    rewrite H2, search_all_inert; [done|].
    rewrite !all_chars_app.
    by rewrite (digit_run_inert 2 e), (digit_run_inert 6 h),
      (digits_inert extra'), Htail. }
  split; [done|]. split; [unfold point_of_line; by rewrite Hsep|].
  by apply step_separator.
Qed.

Lemma negative_latitude_is_separator_witness :
  classify "-58.381592,-34.603722" = Separator
  ∧ point_of_line "-58.381592,-34.603722" = []
  ∧ step Reference.simplify_coords Reference.str_float pending
      "-58.381592,-34.603722"
    = flush Reference.simplify_coords Reference.str_float pending.
Proof.
  apply (negative_latitude_is_separator Reference.simplify_coords
           Reference.str_float pending "58" "381592" "" "34" "603722" "" "");
    reflexivity.
Defined.
